(** * Fake-job detection: feature assembly, salary normalisation and the
      prediction endpoint

    A shallow embedding of [train.py] ([clean_salary], the feature rows
    of [load_data], the resampling step of [main]) and of [app.py]
    ([clean_salary], [load_ml], the [/predict] view), with the
    properties of the specification stated over it.

    Modelling conventions.
    - A Python [str] is a [string]; a character is a code point below 256
      (Latin-1).  In that range [str.isspace] and the regex class [\d] are
      the predicates [isspace] and [isdigit] below.  The only code points
      above 255 in the program are the two pictographs of the flashed
      prediction messages; they are written as their UTF-8 bytes.
    - A Python [float] is an exact rational ([Q]); results are compared
      with [==].  The numbers the code manipulates are non-negative
      integers and their means.  Rounding, and the overflow to [inf] of
      values beyond the double range, are not part of the model: what is
      proved of a value holds of the value computed without rounding.
    - A raised exception is a value [Raise e]; functions that can raise
      return a [result]. *)

From Stdlib Require Import Ascii String List Bool Arith ZArith QArith Lia.
Import ListNotations.
Open Scope string_scope.

(** ** Exceptions and the error monad *)

(** An exception: its class name and [str(e)]. *)
Inductive exn : Type :=
| PyExn (cls : string) (msg : string).

Definition exn_str (e : exn) : string :=
  match e with PyExn _ m => m end.

Inductive result (A : Type) : Type :=
| Ok (a : A)
| Raise (e : exn).
Arguments Ok {A} a.
Arguments Raise {A} e.

Definition rbind {A B} (c : result A) (k : A -> result B) : result B :=
  match c with
  | Ok a => k a
  | Raise e => Raise e
  end.

Declare Scope result_scope.
Delimit Scope result_scope with result.
Notation "x <- c ;; k" := (rbind c (fun x => k))
  (at level 61, c at next level, right associativity) : result_scope.

(** A list comprehension whose body can raise: the first exception
    aborts the whole comprehension. *)
Fixpoint comprehension {A B} (f : A -> result B) (l : list A)
  : result (list B) :=
  match l with
  | [] => Ok []
  | x :: xs =>
      (y <- f x ;;
       ys <- comprehension f xs ;;
       Ok (y :: ys))%result
  end.

(** ** Python string primitives *)

Module Py.

(** [\d] on Latin-1 code points: the ASCII digits. *)
Definition isdigit (c : ascii) : bool :=
  let n := nat_of_ascii c in (48 <=? n)%nat && (n <=? 57)%nat.

(** [str.isspace] on Latin-1 code points: TAB..CR, FS..US, SPACE, NEL
    and NBSP. *)
Definition isspace (c : ascii) : bool :=
  let n := nat_of_ascii c in
  ((9 <=? n)%nat && (n <=? 13)%nat)
  || ((28 <=? n)%nat && (n <=? 32)%nat)
  || (n =? 133)%nat || (n =? 160)%nat.

Fixpoint lstrip (s : string) : string :=
  match s with
  | EmptyString => EmptyString
  | String c s' => if isspace c then lstrip s' else s
  end.

Fixpoint rstrip (s : string) : string :=
  match s with
  | EmptyString => EmptyString
  | String c s' =>
      match rstrip s' with
      | EmptyString => if isspace c then EmptyString else String c EmptyString
      | r => String c r
      end
  end.

(** [s.strip()] *)
Definition strip (s : string) : string := rstrip (lstrip s).

(** [sep.join(parts)] *)
Definition join (sep : string) (parts : list string) : string :=
  String.concat sep parts.

(** [s.replace(",", "")] *)
Fixpoint remove_commas (s : string) : string :=
  match s with
  | EmptyString => EmptyString
  | String c s' =>
      if Ascii.eqb c "," then remove_commas s' else String c (remove_commas s')
  end.

(** [needle in s] *)
Definition contains (needle s : string) : bool :=
  match String.index 0 needle s with
  | Some _ => true
  | None => false
  end.

(** Truthiness of a string: [not s] is [s == ""]. *)
Definition truthy_str (s : string) : bool := negb (String.eqb s "").

(** Value of a string of ASCII digits, most significant first;
    [None] on any other character. *)
Fixpoint digits_value (acc : N) (s : string) : option N :=
  match s with
  | EmptyString => Some acc
  | String c s' =>
      if isdigit c
      then digits_value (10 * acc + (N_of_ascii c - 48)) s'
      else None
  end.

(** [float(s)], restricted to the literals this program builds: a
    non-empty run of ASCII digits.  Every other string is modelled as
    [ValueError]; Python accepts more (signs, exponents, blanks), so the
    model raises at least as often as the interpreter.  The value is the
    exact integer the digits denote: the rounding to the nearest double,
    and [inf] for a run beyond the double range, are left out. *)
Definition float (s : string) : result Q :=
  match s with
  | EmptyString =>
      Raise (PyExn "ValueError" "could not convert string to float: ''")
  | _ =>
      match digits_value 0 s with
      | Some n => Ok (inject_Z (Z.of_N n))
      | None =>
          Raise (PyExn "ValueError" ("could not convert string to float: " ++ s))
      end
  end.

(** [sum(nums)]: left fold from 0, each addition exact (no rounding,
    no overflow). *)
Definition sum (nums : list Q) : Q := fold_left Qplus nums 0%Q.

(** [a / n] for a float [a] and a length [n]; the quotient is exact. *)
Definition div (a : Q) (n : nat) : result Q :=
  match n with
  | O => Raise (PyExn "ZeroDivisionError" "float division by zero")
  | _ => Ok (a / inject_Z (Z.of_nat n))%Q
  end.

(** *** [re.findall(r"\d+(?:,\d+)?", s)] *)

(** Longest prefix of digits, and what follows it: the greedy [\d+]. *)
Fixpoint span_digits (s : string) : string * string :=
  match s with
  | EmptyString => (EmptyString, EmptyString)
  | String c s' =>
      if isdigit c
      then let (d, r) := span_digits s' in (String c d, r)
      else (EmptyString, s)
  end.

(** One attempt to match the pattern at the start of [s]: the match and
    the unread rest.  [\d+] takes the whole digit run; the optional
    group [(?:,\d+)?] is taken once when a comma and at least one digit
    follow, and skipped otherwise. *)
Definition match_number (s : string) : option (string * string) :=
  let (d1, r1) := span_digits s in
  match d1 with
  | EmptyString => None
  | _ =>
      match r1 with
      | String c r2 =>
          if Ascii.eqb c ","
          then
            let (d2, r3) := span_digits r2 in
            match d2 with
            | EmptyString => Some (d1, r1)
            | _ => Some (d1 ++ String "," d2, r3)
            end
          else Some (d1, r1)
      | EmptyString => Some (d1, r1)
      end
  end.

(** The scan of [findall]: non-overlapping matches, left to right; a
    position with no match is skipped.  Every step consumes at least one
    character, so [length s] steps are enough ([findall_fuel_enough]). *)
Fixpoint findall_fuel (fuel : nat) (s : string) : list string :=
  match fuel with
  | O => []
  | S fuel' =>
      match s with
      | EmptyString => []
      | String _ s' =>
          match match_number s with
          | Some (m, rest) => m :: findall_fuel fuel' rest
          | None => findall_fuel fuel' s'
          end
      end
  end.

Definition findall (s : string) : list string :=
  findall_fuel (String.length s) s.

End Py.

(** ** Salary normalisation *)

Open Scope result_scope.

Module App.

(** [app.py], [clean_salary].  [None] is a missing value ([None] or NaN,
    for which [pd.isna] holds); [Some s] a string. *)
Definition clean_salary (s : option string) : result Q :=
  match s with
  | None => Ok 0%Q
  | Some s =>
      if String.eqb (Py.strip s) "" then Ok 0%Q
      else
        nums <- comprehension (fun x => Py.float (Py.remove_commas x))
                              (Py.findall s) ;;
        if (List.length nums =? 0)%nat then Ok 0%Q
        else if (List.length nums =? 1)%nat then Ok (nth 0 nums 0%Q)
        else Py.div (Py.sum nums) (List.length nums)
  end.

End App.

Module Train.

(** [train.py], [clean_salary]. *)
Definition clean_salary (s : option string) : result Q :=
  match s with
  | None => Ok 0%Q
  | Some s =>
      if String.eqb (Py.strip s) "" then Ok 0%Q
      else
        nums <- comprehension (fun x => Py.float (Py.remove_commas x))
                              (Py.findall s) ;;
        match nums with
        | [] => Ok 0%Q
        | _ => Py.div (Py.sum nums) (List.length nums)
        end
  end.

End Train.

(** ** Feature assembly at training time *)

Module TrainData.

(** A row of the data frame returned by [pd.read_csv], for a file
    whose four text columns are read as strings (dtype [object]) and
    whose label column is read as integers, on which [astype(int)] is
    the identity; [None] is a missing cell (NaN).  Numeric cells of a
    text column, and label cells that are not integers, are outside
    this type. *)
Record JobRecord : Type := {
  job_title : option string;
  salary_range : option string;
  company_profile : option string;
  requirements : option string;
  fraudulent : Z
}.

(** [df.fillna("")] on one cell. *)
Definition fillna (cell : option string) : string :=
  match cell with
  | Some s => s
  | None => ""
  end.

(** The [text] column of [load_data]:
    [job_title + " " + company_profile + " " + requirements]. *)
Definition text_column (r : JobRecord) : string :=
  fillna (job_title r) ++ " " ++
  fillna (company_profile r) ++ " " ++
  fillna (requirements r).

(** Lines 47-56 of [load_data] on one row: the features
    [(text, salary_range)] and the label. *)
Definition load_row (r : JobRecord) : result ((string * Q) * Z) :=
  salary <- Train.clean_salary (Some (fillna (salary_range r))) ;;
  Ok ((text_column r, salary), fraudulent r).

End TrainData.

(** ** Class-imbalance resampling *)

Module Resampler.

Inductive label : Type := REAL | FAKE.

Definition label_eqb (a b : label) : bool :=
  match a, b with
  | REAL, REAL | FAKE, FAKE => true
  | _, _ => false
  end.

Section Oversampling.

(** A labelled example: any feature row with its label. *)
Variable Row : Type.

(** The pseudo-random generator: a generator state made from a seed,
    and its [k]-th draw below a bound. *)
Variable rng : Type.
Variable seed_rng : Z -> rng.
Variable randint : rng -> nat -> nat -> nat.

Definition count (c : label) (data : list (Row * label)) : nat :=
  List.length (filter (fun e => label_eqb (snd e) c) data).

Definition of_class (c : label) (data : list (Row * label))
  : list (Row * label) :=
  filter (fun e => label_eqb (snd e) c) data.

(** [k] draws with replacement from [pool]. *)
Definition draws (g : rng) (pool : list (Row * label)) (k : nat)
  : list (Row * label) :=
  flat_map
    (fun i =>
       match nth_error pool (randint g i (List.length pool)
                             mod List.length pool) with
       | Some e => [e]
       | None => []
       end)
    (seq 0 k).

(** Modelled from the spec: [RandomOverSampler.fit_resample] of the
    imbalanced-learn package, which [main] calls and which is not
    among the sources.  The minority class is oversampled with
    replacement until both classes have equal count; examples are
    duplicated as they are; the generator is the one made from
    [random_state] when it is given, the ambient one otherwise.  With
    an empty minority class there is nothing to draw from: [None]. *)
Definition fit_resample (random_state : option Z) (ambient : rng)
           (data : list (Row * label)) : option (list (Row * label)) :=
  let g := match random_state with
           | Some seed => seed_rng seed
           | None => ambient
           end in
  let n_real := count REAL data in
  let n_fake := count FAKE data in
  if (n_real =? n_fake)%nat then Some data
  else
    let minority := if (n_real <? n_fake)%nat then REAL else FAKE in
    let pool := of_class minority data in
    match pool with
    | [] => None
    | _ => Some (data ++ draws g pool (Nat.max n_real n_fake
                                       - Nat.min n_real n_fake))%list
    end.

(** [main], lines 71-72: [RandomOverSampler(random_state=42)] applied
    to the training split. *)
Definition balance (ambient : rng) (train : list (Row * label))
  : option (list (Row * label)) :=
  fit_resample (Some 42%Z) ambient train.

End Oversampling.

End Resampler.

(** ** The prediction endpoint *)

Module Endpoint.

(** The two artifact paths of [app.ml]. *)
Inductive path : Type := VecPath | ModelPath.

(** A committed row of [PredictionHistory]. *)
Record PredictionHistory : Type := {
  ph_text : string;
  ph_prediction : string;
  ph_user_id : Z
}.

(** What a view returns: [jsonify({key: value}), status], or a flashed
    message followed by a redirect to the dashboard. *)
Inductive response : Type :=
| Json (key value : string) (status : Z)
| FlashRedirect (message category : string).

(** The POST request: the five form fields ([None] when the field is
    not sent), the [X-Requested-With] test and the logged-in user. *)
Record request : Type := {
  form_text : option string;
  form_job_title : option string;
  form_salary_range : option string;
  form_company_profile : option string;
  form_requirements : option string;
  xhr : bool;
  user_id : Z
}.

(** [request.form.get(key, "")] *)
Definition form_get (field : option string) : string :=
  match field with
  | Some s => s
  | None => ""
  end.

Section Service.

(** A deserialised artifact, its truth value, and what
    [artifact.predict(df)] gives on the one-row frame
    [{"text": [text], "salary_range": [salary]}]: an exception, or an
    array, each item of which is given by what [int(item)] makes of it
    (an integer, or the exception that the conversion raises). *)
Variable Artifact : Type.
Variable truthy : Artifact -> bool.
Variable model_predict :
  Artifact -> string -> Q -> result (list (result Z)).

(** A file on disk: absent, unreadable by [joblib.load], or holding
    an artifact. *)
Inductive file : Type :=
| Absent
| Corrupt (e : exn)
| Stored (a : Artifact).

(** What a request finds outside the process: the two artifact files,
    and whether [db.session.commit()] fails. *)
Record world : Type := {
  vec_file : file;
  model_file : file;
  commit_error : option exn
}.

Inductive event : Type :=
| LoadFile (p : path)
| ModelPredict (text : string) (salary : Q)
| DbCommit (rec : PredictionHistory).

(** The process state: the cache [app.ml], the committed history
    rows, and the calls made so far (most recent first). *)
Record app_state : Type := {
  ml_model : option Artifact;
  ml_vectorizer : option Artifact;
  history : list PredictionHistory;
  trace : list event
}.

(** Stateful code that can raise; the state reached when the
    exception is raised is kept. *)
Definition M (A : Type) : Type := app_state -> result A * app_state.

Definition ret {A} (a : A) : M A := fun st => (Ok a, st).

Definition throw {A} (e : exn) : M A := fun st => (Raise e, st).

Definition bind {A B} (c : M A) (k : A -> M B) : M B :=
  fun st =>
    match c st with
    | (Ok a, st') => k a st'
    | (Raise e, st') => (Raise e, st')
    end.

(** [try: body except Exception as e: handler] *)
Definition try_except {A} (body : M A) (handler : exn -> M A) : M A :=
  fun st =>
    match body st with
    | (Ok a, st') => (Ok a, st')
    | (Raise e, st') => handler e st'
    end.

Definition get : M app_state := fun st => (Ok st, st).

Definition lift {A} (r : result A) : M A := fun st => (r, st).

Definition emit (ev : event) : M unit :=
  fun st =>
    (Ok tt, {| ml_model := ml_model st;
               ml_vectorizer := ml_vectorizer st;
               history := history st;
               trace := ev :: trace st |}).

Definition set_vectorizer (a : Artifact) : M unit :=
  fun st =>
    (Ok tt, {| ml_model := ml_model st;
               ml_vectorizer := Some a;
               history := history st;
               trace := trace st |}).

Definition set_model (a : Artifact) : M unit :=
  fun st =>
    (Ok tt, {| ml_model := Some a;
               ml_vectorizer := ml_vectorizer st;
               history := history st;
               trace := trace st |}).

Notation "x <~ c ;; k" := (bind c (fun x => k))
  (at level 61, c at next level, right associativity).
Notation "c ;;; k" := (bind c (fun _ => k))
  (at level 61, right associativity).

(** [os.path.exists] *)
Definition exists_file (f : file) : bool :=
  match f with
  | Absent => false
  | _ => true
  end.

(** [joblib.load] *)
Definition joblib_load (p : path) (f : file) : M Artifact :=
  emit (LoadFile p) ;;;
  match f with
  | Stored a => ret a
  | Corrupt e => throw e
  | Absent => throw (PyExn "FileNotFoundError" "No such file or directory")
  end.

(** Truth value of [app.ml.get(key)]. *)
Definition truthy_slot (slot : option Artifact) : bool :=
  match slot with
  | Some a => truthy a
  | None => false
  end.

(** [load_ml] *)
Definition load_ml (w : world) : M unit :=
  st <~ get ;;
  if truthy_slot (ml_model st) && truthy_slot (ml_vectorizer st)
  then ret tt
  else
    try_except
      ((if exists_file (vec_file w)
        then (v <~ joblib_load VecPath (vec_file w) ;; set_vectorizer v)
        else ret tt) ;;;
       (if exists_file (model_file w)
        then (m <~ joblib_load ModelPath (model_file w) ;; set_model m)
        else ret tt) ;;;
       ret tt)
      (fun _ => ret tt).

(** [db.session.add(rec); db.session.commit()]: a failed commit
    stores nothing. *)
Definition db_commit (w : world) (rec : PredictionHistory) : M unit :=
  emit (DbCommit rec) ;;;
  match commit_error w with
  | Some e => throw e
  | None =>
      fun st =>
        (Ok tt, {| ml_model := ml_model st;
                   ml_vectorizer := ml_vectorizer st;
                   history := (history st ++ [rec])%list;
                   trace := trace st |})
  end.

(** [pred_raw[0]] on the array that [predict] returns. *)
Definition first_item (pred_raw : list (result Z)) : result (result Z) :=
  match pred_raw with
  | item :: _ => Ok item
  | [] =>
      Raise (PyExn "IndexError"
                   "index 0 is out of bounds for axis 0 with size 0")
  end.

(** [int(item)] *)
Definition py_int (item : result Z) : result Z := item.

(** The pictograph U+2705, as its UTF-8 bytes. *)
Definition check_mark : string :=
  String "226" (String "156" (String "133" "")).

(** The pictograph U+26A0 U+FE0F, as its UTF-8 bytes. *)
Definition warning_sign : string :=
  String "226" (String "154" (String "160"
    (String "239" (String "184" (String "143" ""))))).

(** Line 255. *)
Definition label_of (pred : Z) : string :=
  if (pred =? 1)%Z then "Fake Job Posting" else "Real Job Posting".

(** Lines 224-231: the text the view works on. *)
Definition request_text (req : request) : string :=
  let text := Py.strip (form_get (form_text req)) in
  let job_title := Py.strip (form_get (form_job_title req)) in
  let salary_range_raw := Py.strip (form_get (form_salary_range req)) in
  let company_profile := Py.strip (form_get (form_company_profile req)) in
  let requirements := Py.strip (form_get (form_requirements req)) in
  if negb (Py.truthy_str text)
     && (Py.truthy_str job_title || Py.truthy_str salary_range_raw
         || Py.truthy_str company_profile || Py.truthy_str requirements)
  then Py.strip (Py.join " " [job_title; salary_range_raw;
                              company_profile; requirements])
  else text.

Definition input_empty_response (req : request) : response :=
  if xhr req then Json "error" "Please provide job details." 400
  else FlashRedirect "Please fill all fields before predicting." "warning".

Definition model_missing_response (req : request) : response :=
  let msg := "Model files missing. Please run train.py first." in
  if xhr req then Json "error" msg 500
  else FlashRedirect msg "danger".

Definition prediction_response (req : request) (label : string)
  : response :=
  if xhr req then Json "prediction" label 200
  else if Py.contains "Real" label
       then FlashRedirect (check_mark ++ " Prediction: " ++ label) "success"
       else FlashRedirect (warning_sign ++ " Prediction: " ++ label)
                          "danger".

Definition failure_response (req : request) (e : exn) : response :=
  if xhr req then Json "error" (exn_str e) 500
  else FlashRedirect ("Prediction failed: " ++ exn_str e) "danger".

(** The [/predict] view. *)
Definition predict (w : world) (req : request) : M response :=
  let text := request_text req in
  let salary_range_raw := Py.strip (form_get (form_salary_range req)) in
  if negb (Py.truthy_str text) then ret (input_empty_response req)
  else
    load_ml w ;;;
    try_except
      (st <~ get ;;
       match ml_vectorizer st, ml_model st with
       | Some _, Some mdl =>
           salary_numeric <~ lift (App.clean_salary (Some salary_range_raw)) ;;
           emit (ModelPredict text salary_numeric) ;;;
           pred_raw <~ lift (model_predict mdl text salary_numeric) ;;
           item <~ lift (first_item pred_raw) ;;
           pred <~ lift (py_int item) ;;
           let label := label_of pred in
           db_commit w {| ph_text := text;
                          ph_prediction := label;
                          ph_user_id := user_id req |} ;;;
           ret (prediction_response req label)
       | _, _ => ret (model_missing_response req)
       end)
      (fun e => ret (failure_response req e)).

End Service.

End Endpoint.

(** ** Definitions used to state the properties *)

Module Spec.

Fixpoint all_space (s : string) : bool :=
  match s with
  | EmptyString => true
  | String c s' => Py.isspace c && all_space s'
  end.

Fixpoint all_digits (s : string) : bool :=
  match s with
  | EmptyString => true
  | String c s' => Py.isdigit c && all_digits s'
  end.

Fixpoint has_digit (s : string) : bool :=
  match s with
  | EmptyString => false
  | String c s' => Py.isdigit c || has_digit s'
  end.

(** A non-empty run of digits. *)
Definition digit_string (s : string) : Prop :=
  s <> "" /\ all_digits s = true.

(** The number a match of the pattern stands for. *)
Definition number_value (m : string) : Q :=
  match Py.float (Py.remove_commas m) with
  | Ok q => q
  | Raise _ => 0%Q
  end.

(** The numbers found in a salary string, in order. *)
Definition found_numbers (s : string) : list Q :=
  map number_value (Py.findall s).

(** What the specification asks of the normaliser, from the numbers
    found: zero, the number, or the mean of all of them. *)
Definition representative (nums : list Q) : Q :=
  match nums with
  | [] => 0%Q
  | [x] => x
  | _ => (Py.sum nums / inject_Z (Z.of_nat (List.length nums)))%Q
  end.

(** [r] is a normal return of a value equal to [q]. *)
Definition returns (r : result Q) (q : Q) : Prop :=
  match r with
  | Ok x => (x == q)%Q
  | Raise _ => False
  end.

(** [t] can follow any text without joining a number of that text: it
    starts neither with a digit nor with a comma and a digit. *)
Definition clean_break (t : string) : bool :=
  match t with
  | EmptyString => true
  | String c t' =>
      negb (Py.isdigit c)
      && (negb (Ascii.eqb c ",")
          || match t' with
             | EmptyString => true
             | String c' _ => negb (Py.isdigit c')
             end)
  end.

(** The salary value the view computes for a request. *)
Definition request_salary (req : Endpoint.request) : Q :=
  representative
    (found_numbers
       (Py.strip (Endpoint.form_get (Endpoint.form_salary_range req)))).

(** The history row the view writes for a raw prediction [pred]. *)
Definition history_row (req : Endpoint.request) (pred : Z)
  : Endpoint.PredictionHistory :=
  {| Endpoint.ph_text := Endpoint.request_text req;
     Endpoint.ph_prediction := Endpoint.label_of pred;
     Endpoint.ph_user_id := Endpoint.user_id req |}.

(** Both slots of the cache hold an artifact that counts as true: the
    test that makes [load_ml] return at once. *)
Definition warm {A : Type} (truthy : A -> bool)
           (st : Endpoint.app_state A) : bool :=
  Endpoint.truthy_slot A truthy (Endpoint.ml_model A st)
  && Endpoint.truthy_slot A truthy (Endpoint.ml_vectorizer A st).

Definition is_load (ev : Endpoint.event) : bool :=
  match ev with
  | Endpoint.LoadFile _ => true
  | _ => false
  end.

Definition is_model_call (ev : Endpoint.event) : bool :=
  match ev with
  | Endpoint.ModelPredict _ _ => true
  | _ => false
  end.

End Spec.

(** ** Concrete inputs *)

Module Sample.

(** A process with nothing cached and an empty history. *)
Definition cold : Endpoint.app_state unit :=
  {| Endpoint.ml_model := None;
     Endpoint.ml_vectorizer := None;
     Endpoint.history := [];
     Endpoint.trace := [] |}.

(** Both artifact files in place. *)
Definition both_files : Endpoint.world unit :=
  {| Endpoint.vec_file := Endpoint.Stored unit tt;
     Endpoint.model_file := Endpoint.Stored unit tt;
     Endpoint.commit_error := None |}.

(** The vectorizer file in place, the model file absent. *)
Definition no_model_file : Endpoint.world unit :=
  {| Endpoint.vec_file := Endpoint.Stored unit tt;
     Endpoint.model_file := Endpoint.Absent unit;
     Endpoint.commit_error := None |}.

Definition any_truthy (_ : unit) : bool := true.

(** A pipeline that answers [pred] on every row. *)
Definition answers (pred : Z) (_ : unit) (_ : string) (_ : Q)
  : result (list (result Z)) :=
  Ok [Ok pred].

(** A pipeline whose [predict] raises. *)
Definition broken (_ : unit) (_ : string) (_ : Q)
  : result (list (result Z)) :=
  Raise (PyExn "ValueError" "Input contains NaN").

(** A request that fills the discrete fields and leaves the free text
    out. *)
Definition discrete_request : Endpoint.request :=
  {| Endpoint.form_text := None;
     Endpoint.form_job_title := Some "Engineer";
     Endpoint.form_salary_range := Some "50,000";
     Endpoint.form_company_profile := Some "Acme";
     Endpoint.form_requirements := Some "Python";
     Endpoint.xhr := true;
     Endpoint.user_id := 7 |}.

(** The same posting as a row of the training set. *)
Definition discrete_row : TrainData.JobRecord :=
  {| TrainData.job_title := Some "Engineer";
     TrainData.salary_range := Some "50,000";
     TrainData.company_profile := Some "Acme";
     TrainData.requirements := Some "Python";
     TrainData.fraudulent := 0 |}.

(** A posting with a job title and nothing else, as a training row. *)
Definition clerk_row : TrainData.JobRecord :=
  {| TrainData.job_title := Some "Clerk";
     TrainData.salary_range := None;
     TrainData.company_profile := None;
     TrainData.requirements := None;
     TrainData.fraudulent := 0 |}.

(** The same posting as a request. *)
Definition clerk_request : Endpoint.request :=
  {| Endpoint.form_text := None;
     Endpoint.form_job_title := Some "Clerk";
     Endpoint.form_salary_range := None;
     Endpoint.form_company_profile := None;
     Endpoint.form_requirements := None;
     Endpoint.xhr := false;
     Endpoint.user_id := 7 |}.

(** A request with nothing but blanks. *)
Definition blank_request : Endpoint.request :=
  {| Endpoint.form_text := Some "   ";
     Endpoint.form_job_title := None;
     Endpoint.form_salary_range := Some " ";
     Endpoint.form_company_profile := None;
     Endpoint.form_requirements := Some "";
     Endpoint.xhr := false;
     Endpoint.user_id := 7 |}.

(** A process that has both artifacts in its cache. *)
Definition warm_state : Endpoint.app_state unit :=
  {| Endpoint.ml_model := Some tt;
     Endpoint.ml_vectorizer := Some tt;
     Endpoint.history := [];
     Endpoint.trace := [] |}.

(** The model file in place, the vectorizer file absent. *)
Definition no_vectorizer_file : Endpoint.world unit :=
  {| Endpoint.vec_file := Endpoint.Absent unit;
     Endpoint.model_file := Endpoint.Stored unit tt;
     Endpoint.commit_error := None |}.

(** No artifact file at all. *)
Definition no_files : Endpoint.world unit :=
  {| Endpoint.vec_file := Endpoint.Absent unit;
     Endpoint.model_file := Endpoint.Absent unit;
     Endpoint.commit_error := None |}.

(** A generator whose state is its seed and whose [i]-th draw is the
    seed plus [i]. *)
Definition seed_state (seed : Z) : Z := seed.

Definition counter_draw (g : Z) (i : nat) (_ : nat) : nat :=
  (Z.to_nat g + i)%nat.

(** Three real postings and no fake one. *)
Definition one_class : list (nat * Resampler.label) :=
  [(10%nat, Resampler.REAL); (11%nat, Resampler.REAL);
   (12%nat, Resampler.REAL)].

(** Three real postings and a fake one. *)
Definition unbalanced : list (nat * Resampler.label) :=
  [(10%nat, Resampler.REAL); (11%nat, Resampler.REAL);
   (12%nat, Resampler.REAL); (13%nat, Resampler.FAKE)].

End Sample.

(** ** Characters and stripping *)

Lemma isspace_not_digit (c : ascii) :
  Py.isspace c = true -> Py.isdigit c = false.
Proof.
  destruct c as [[] [] [] [] [] [] [] []]; vm_compute; congruence.
Qed.

Lemma digit_not_comma (c : ascii) :
  Py.isdigit c = true -> Ascii.eqb c "," = false.
Proof.
  destruct c as [[] [] [] [] [] [] [] []]; vm_compute; congruence.
Qed.

Lemma rstrip_empty (s : string) :
  Py.rstrip s = "" -> Spec.all_space s = true.
Proof.
  induction s as [|c s IH]; simpl; [reflexivity|].
  destruct (Py.rstrip s) eqn:E.
  - destruct (Py.isspace c); [intros _; now rewrite IH | discriminate].
  - discriminate.
Qed.

Lemma all_space_rstrip (s : string) :
  Spec.all_space s = true -> Py.rstrip s = "".
Proof.
  induction s as [|c s IH]; simpl; [reflexivity|].
  intros H. apply andb_prop in H as [Hc Hs].
  now rewrite (IH Hs), Hc.
Qed.

Lemma lstrip_all_space (s : string) :
  Spec.all_space (Py.lstrip s) = true -> Spec.all_space s = true.
Proof.
  induction s as [|c s IH]; simpl; [reflexivity|].
  destruct (Py.isspace c) eqn:E; simpl.
  - exact IH.
  - rewrite E. discriminate.
Qed.

Lemma all_space_lstrip (s : string) :
  Spec.all_space s = true -> Py.lstrip s = "".
Proof.
  induction s as [|c s IH]; simpl; [reflexivity|].
  intros H. apply andb_prop in H as [Hc Hs]. now rewrite Hc, IH.
Qed.

(** A string strips to nothing exactly when it is made of blanks. *)
Lemma strip_empty_iff (s : string) :
  Py.strip s = "" <-> Spec.all_space s = true.
Proof.
  unfold Py.strip. split.
  - intros H. now apply lstrip_all_space, rstrip_empty.
  - intros H. now rewrite (all_space_lstrip s H).
Qed.

Lemma all_space_no_digit (s : string) :
  Spec.all_space s = true -> Spec.has_digit s = false.
Proof.
  induction s as [|c s IH]; simpl; [reflexivity|].
  intros H. apply andb_prop in H as [Hc Hs].
  now rewrite (isspace_not_digit c Hc), IH.
Qed.

(** ** The scan of [findall] *)

Lemma span_digits_spec (s d r : string) :
  Py.span_digits s = (d, r) ->
  s = d ++ r /\ Spec.all_digits d = true.
Proof.
  revert d r. induction s as [|c s IH]; simpl; intros d r H.
  - inversion H; subst. now split.
  - destruct (Py.isdigit c) eqn:E.
    + destruct (Py.span_digits s) as [d' r'] eqn:E'.
      inversion H; subst. destruct (IH d' r eq_refl) as [-> Hd].
      simpl. now rewrite E, Hd.
    + inversion H; subst. now split.
Qed.

Lemma length_append (a b : string) :
  String.length (a ++ b) = (String.length a + String.length b)%nat.
Proof.
  induction a as [|c a IH]; simpl; [reflexivity | now rewrite IH].
Qed.

(** A match is not empty: the unread rest is strictly shorter. *)
Lemma match_number_shorter (s m rest : string) :
  Py.match_number s = Some (m, rest) ->
  (String.length rest < String.length s)%nat.
Proof.
  unfold Py.match_number.
  destruct (Py.span_digits s) as [d1 r1] eqn:E1.
  destruct (span_digits_spec _ _ _ E1) as [-> _].
  destruct d1 as [|c1 d1]; [discriminate|].
  destruct r1 as [|c r2].
  - intros H; inversion H; subst. rewrite length_append. simpl. lia.
  - destruct (Ascii.eqb c ",").
    + destruct (Py.span_digits r2) as [d2 r3] eqn:E2.
      destruct (span_digits_spec _ _ _ E2) as [-> _].
      destruct d2; intros H; inversion H; subst;
        rewrite !length_append; simpl; rewrite ?length_append; simpl; lia.
    + intros H; inversion H; subst. rewrite length_append. simpl. lia.
Qed.

(** Fuel beyond the length of the string changes nothing: [findall] is
    the whole scan. *)
Lemma findall_fuel_enough (fuel : nat) (s : string) :
  (String.length s <= fuel)%nat ->
  Py.findall_fuel fuel s = Py.findall s.
Proof.
  unfold Py.findall.
  remember (String.length s) as n eqn:Hn.
  revert s Hn fuel.
  induction n as [n IH] using lt_wf_ind; intros s Hn fuel Hle.
  destruct s as [|c s'].
  - simpl in Hn; subst. destruct fuel; reflexivity.
  - simpl in Hn. subst n. destruct fuel as [|fuel]; [lia|].
    simpl Py.findall_fuel at 1 2.
    destruct (Py.match_number (String c s')) as [[m rest]|] eqn:E.
    + pose proof (match_number_shorter _ _ _ E) as Hlt. simpl in Hlt.
      f_equal.
      rewrite (IH (String.length rest) ltac:(lia) rest eq_refl fuel ltac:(lia)).
      now rewrite (IH (String.length rest) ltac:(lia) rest eq_refl
                      (String.length s') ltac:(lia)).
    + apply (IH (String.length s') ltac:(lia) s' eq_refl fuel). lia.
Qed.

Lemma findall_no_digit (fuel : nat) (s : string) :
  Spec.has_digit s = false -> Py.findall_fuel fuel s = [].
Proof.
  revert s. induction fuel as [|fuel IH]; intros s H; [reflexivity|].
  destruct s as [|c s]; [reflexivity|].
  simpl in H. apply orb_false_elim in H as [Hc Hs].
  simpl. unfold Py.match_number. simpl. rewrite Hc. now apply IH.
Qed.

(** ** Every match parses *)

Lemma all_digits_app (a b : string) :
  Spec.all_digits (a ++ b)
  = Spec.all_digits a && Spec.all_digits b.
Proof.
  induction a as [|c a IH]; simpl; [reflexivity|].
  now rewrite IH, andb_assoc.
Qed.

Lemma remove_commas_app (a b : string) :
  Py.remove_commas (a ++ b) = Py.remove_commas a ++ Py.remove_commas b.
Proof.
  induction a as [|c a IH]; simpl; [reflexivity|].
  destruct (Ascii.eqb c ","); simpl; now rewrite IH.
Qed.

Lemma remove_commas_digits (d : string) :
  Spec.all_digits d = true -> Py.remove_commas d = d.
Proof.
  induction d as [|c d IH]; simpl; [reflexivity|].
  intros H. apply andb_prop in H as [Hc Hd].
  now rewrite (digit_not_comma c Hc), IH.
Qed.

Lemma digits_value_total (s : string) :
  Spec.all_digits s = true ->
  forall acc, exists n, Py.digits_value acc s = Some n.
Proof.
  induction s as [|c s IH]; simpl; intros H acc.
  - now exists acc.
  - apply andb_prop in H as [Hc Hs]. rewrite Hc. now apply IH.
Qed.

Lemma float_digit_string (s : string) :
  Spec.digit_string s ->
  exists n, Py.float s = Ok (inject_Z (Z.of_N n)).
Proof.
  intros [Hne Hd]. unfold Py.float.
  destruct s as [|c s]; [congruence|].
  destruct (digits_value_total _ Hd 0%N) as [n ->]. now exists n.
Qed.

Lemma remove_commas_group (a b : string) :
  a <> "" -> Spec.all_digits a = true -> Spec.all_digits b = true ->
  Spec.digit_string (Py.remove_commas (a ++ String "," b)).
Proof.
  intros Ha H1 H2. rewrite remove_commas_app.
  change (Py.remove_commas (String "," b)) with (Py.remove_commas b).
  rewrite (remove_commas_digits _ H1), (remove_commas_digits _ H2).
  split.
  - destruct a; [congruence | discriminate].
  - now rewrite all_digits_app, H1, H2.
Qed.

Lemma match_number_digit_string (s m rest : string) :
  Py.match_number s = Some (m, rest) ->
  Spec.digit_string (Py.remove_commas m).
Proof.
  unfold Py.match_number.
  destruct (Py.span_digits s) as [d1 r1] eqn:E1.
  destruct (span_digits_spec _ _ _ E1) as [_ H1].
  destruct d1 as [|c1 d1]; [discriminate|].
  assert (Hone : Spec.digit_string (Py.remove_commas (String c1 d1))).
  { rewrite (remove_commas_digits _ H1). split; [discriminate | exact H1]. }
  destruct r1 as [|c r2]; [intros H; inversion H; subst; exact Hone|].
  destruct (Ascii.eqb c ",") eqn:Ec;
    [|intros H; inversion H; subst; exact Hone].
  destruct (Py.span_digits r2) as [d2 r3] eqn:E2.
  destruct (span_digits_spec _ _ _ E2) as [_ H2].
  destruct d2 as [|c2 d2]; intros H; inversion H; subst; [exact Hone|].
  apply (remove_commas_group (String c1 d1) (String c2 d2));
    [discriminate | exact H1 | exact H2].
Qed.

Lemma findall_fuel_digit_strings (fuel : nat) (s : string) :
  Forall (fun m => Spec.digit_string (Py.remove_commas m))
         (Py.findall_fuel fuel s).
Proof.
  revert s. induction fuel as [|fuel IH]; intros s; [constructor|].
  destruct s as [|c s]; [constructor|].
  cbn [Py.findall_fuel].
  destruct (Py.match_number (String c s)) as [[m rest]|] eqn:E.
  - constructor; [exact (match_number_digit_string _ _ _ E) | apply IH].
  - apply IH.
Qed.

Lemma number_value_float (m : string) :
  Spec.digit_string (Py.remove_commas m) ->
  Py.float (Py.remove_commas m) = Ok (Spec.number_value m)
  /\ (0 <= Spec.number_value m)%Q.
Proof.
  intros H. unfold Spec.number_value.
  destruct (float_digit_string _ H) as [n ->]. split; [reflexivity|].
  unfold Qle; simpl. lia.
Qed.

Lemma comprehension_digit_strings (l : list string) :
  Forall (fun m => Spec.digit_string (Py.remove_commas m)) l ->
  comprehension (fun x => Py.float (Py.remove_commas x)) l
  = Ok (map Spec.number_value l).
Proof.
  induction 1 as [|m l Hm _ IH]; [reflexivity|].
  cbn [comprehension map].
  destruct (number_value_float m Hm) as [-> _]. cbn [rbind].
  now rewrite IH.
Qed.

(** The comprehension of [clean_salary] never raises: it yields the
    numbers found. *)
Lemma comprehension_found (s : string) :
  comprehension (fun x => Py.float (Py.remove_commas x)) (Py.findall s)
  = Ok (Spec.found_numbers s).
Proof.
  apply comprehension_digit_strings, findall_fuel_digit_strings.
Qed.

Lemma found_numbers_nonneg (s : string) :
  Forall (fun q => (0 <= q)%Q) (Spec.found_numbers s).
Proof.
  unfold Spec.found_numbers.
  pose proof (findall_fuel_digit_strings (String.length s) s) as H.
  fold (Py.findall s) in H.
  induction H as [|m l Hm _ IH]; constructor.
  - now apply number_value_float.
  - exact IH.
Qed.

Lemma found_numbers_no_digit (s : string) :
  Spec.has_digit s = false -> Spec.found_numbers s = [].
Proof.
  intros H. unfold Spec.found_numbers, Py.findall.
  now rewrite (findall_no_digit _ _ H).
Qed.

Lemma found_numbers_blank (s : string) :
  Py.strip s = "" -> Spec.found_numbers s = [].
Proof.
  intros H. now apply found_numbers_no_digit, all_space_no_digit, strip_empty_iff.
Qed.

(** ** Sums and means *)

Lemma fold_left_Qplus_nonneg (l : list Q) :
  Forall (fun q => (0 <= q)%Q) l ->
  forall acc, (0 <= acc)%Q -> (0 <= fold_left Qplus l acc)%Q.
Proof.
  induction 1 as [|x l Hx _ IH]; intros acc Hacc; simpl; [exact Hacc|].
  apply IH. rewrite <- (Qplus_0_l 0). now apply Qplus_le_compat.
Qed.

Lemma sum_nonneg (l : list Q) :
  Forall (fun q => (0 <= q)%Q) l -> (0 <= Py.sum l)%Q.
Proof.
  intros H. apply (fold_left_Qplus_nonneg l H). apply Qle_refl.
Qed.

Lemma mean_nonneg (a : Q) (n : nat) :
  (0 <= a)%Q -> (0 <= a / inject_Z (Z.of_nat (S n)))%Q.
Proof.
  intros H. apply Qle_shift_div_l.
  - unfold Qlt; simpl. lia.
  - now rewrite Qmult_0_l.
Qed.

Lemma representative_nonneg (l : list Q) :
  Forall (fun q => (0 <= q)%Q) l -> (0 <= Spec.representative l)%Q.
Proof.
  intros H. destruct l as [|x [|y l]]; simpl.
  - apply Qle_refl.
  - now inversion H.
  - apply (mean_nonneg _ (S (List.length l))). now apply sum_nonneg.
Qed.

(** ** The two [clean_salary] compute the representative value *)

Lemma app_clean_salary_spec (s : string) :
  App.clean_salary (Some s)
  = Ok (Spec.representative (Spec.found_numbers s)).
Proof.
  unfold App.clean_salary.
  destruct (String.eqb_spec (Py.strip s) "") as [Hb|_].
  - now rewrite (found_numbers_blank s Hb).
  - rewrite comprehension_found. cbn [rbind].
    destruct (Spec.found_numbers s) as [|x [|y l]]; reflexivity.
Qed.

Lemma train_clean_salary_spec (s : string) :
  Spec.returns (Train.clean_salary (Some s))
               (Spec.representative (Spec.found_numbers s)).
Proof.
  unfold Train.clean_salary.
  destruct (String.eqb_spec (Py.strip s) "") as [Hb|_].
  - rewrite (found_numbers_blank s Hb). simpl. reflexivity.
  - rewrite comprehension_found. cbn [rbind].
    destruct (Spec.found_numbers s) as [|x [|y l]]; simpl.
    + reflexivity.
    + unfold Py.sum; simpl. field.
    + reflexivity.
Qed.

Lemma train_clean_salary_value (s : string) :
  Train.clean_salary (Some s)
  = Ok (match Spec.found_numbers s with
        | [] => 0%Q
        | nums => (Py.sum nums / inject_Z (Z.of_nat (List.length nums)))%Q
        end).
Proof.
  unfold Train.clean_salary.
  destruct (String.eqb_spec (Py.strip s) "") as [Hb|_].
  - now rewrite (found_numbers_blank s Hb).
  - rewrite comprehension_found. cbn [rbind].
    destruct (Spec.found_numbers s); reflexivity.
Qed.

(** X1. The two copies of [clean_salary], the one of [app.py] and the
    one of [train.py], return normally and return equal values on every
    input, missing or a string. *)
Lemma clean_salary_agree (input : option string) :
  exists a b,
    App.clean_salary input = Ok a /\ Train.clean_salary input = Ok b
    /\ (a == b)%Q.
Proof.
  destruct input as [s|].
  - pose proof (train_clean_salary_spec s) as Ht.
    rewrite app_clean_salary_spec.
    destruct (Train.clean_salary (Some s)) as [b|e]; [|contradiction].
    exists (Spec.representative (Spec.found_numbers s)), b.
    repeat split. simpl in Ht. now rewrite Ht.
  - exists 0%Q, 0%Q. repeat split.
Qed.

(** C4. For every salary string, both [clean_salary] return 0 when no
    number is found, the number itself when exactly one is found, and
    the arithmetic mean of all the numbers found when there are two or
    more; so "50,000-70,000" gives 60000 and "100 200 300" gives 200,
    the mean of the three. *)
Theorem clean_salary_mean_of_all_found :
  (forall s : string,
      Spec.returns (App.clean_salary (Some s))
                   (Spec.representative (Spec.found_numbers s))
      /\ Spec.returns (Train.clean_salary (Some s))
                      (Spec.representative (Spec.found_numbers s)))
  /\ Spec.found_numbers "50,000-70,000" = [50000%Q; 70000%Q]
  /\ Spec.returns (App.clean_salary (Some "50,000-70,000")) 60000
  /\ Spec.returns (Train.clean_salary (Some "50,000-70,000")) 60000
  /\ Spec.found_numbers "100 200 300" = [100%Q; 200%Q; 300%Q]
  /\ Spec.returns (App.clean_salary (Some "100 200 300")) 200
  /\ Spec.returns (Train.clean_salary (Some "100 200 300")) 200
  /\ Spec.returns (App.clean_salary (Some "$50,000")) 50000.
Proof.
  split.
  - intros s. split.
    + rewrite app_clean_salary_spec. simpl. reflexivity.
    + apply train_clean_salary_spec.
  - repeat split; vm_compute; reflexivity.
Qed.

(** C3 (the code departs from it). The pattern takes one comma group at
    most: "50,000" is one number, but "1,000,000" is read as the two
    numbers 1000 and 0, and normalises to their mean 500. *)
Theorem clean_salary_second_comma_group :
  Py.findall "50,000" = ["50,000"]
  /\ Py.findall "1,000,000" = ["1,000"; "000"]
  /\ Spec.found_numbers "1,000,000" = [1000%Q; 0%Q]
  /\ Spec.returns (App.clean_salary (Some "1,000,000")) 500
  /\ Spec.returns (Train.clean_salary (Some "1,000,000")) 500.
Proof.
  repeat split; vm_compute; reflexivity.
Qed.

(** C5. [clean_salary] is total: on every input, missing or a string,
    both copies return normally a value that is at least 0; the value
    is 0 for a missing input and for every string without a digit
    (empty, blank, or wholly non-numeric). *)
Theorem clean_salary_total_nonneg :
  (forall input : option string,
      exists a b,
        App.clean_salary input = Ok a /\ (0 <= a)%Q
        /\ Train.clean_salary input = Ok b /\ (0 <= b)%Q)
  /\ App.clean_salary None = Ok 0%Q
  /\ Train.clean_salary None = Ok 0%Q
  /\ (forall s : string,
         Spec.has_digit s = false ->
         App.clean_salary (Some s) = Ok 0%Q
         /\ Train.clean_salary (Some s) = Ok 0%Q).
Proof.
  split; [|split; [reflexivity|split; [reflexivity|]]].
  - intros [s|].
    + rewrite app_clean_salary_spec, train_clean_salary_value.
      pose proof (found_numbers_nonneg s) as Hnn.
      do 2 eexists. split; [reflexivity|]. split.
      { now apply representative_nonneg. }
      split; [reflexivity|].
      destruct (Spec.found_numbers s) as [|x l]; [apply Qle_refl|].
      apply (mean_nonneg _ (List.length l)). now apply sum_nonneg.
    + exists 0%Q, 0%Q. repeat split; apply Qle_refl.
  - intros s H.
    rewrite app_clean_salary_spec, train_clean_salary_value.
    now rewrite (found_numbers_no_digit s H).
Qed.

Lemma clean_salary_total_nonneg_witness :
  Spec.has_digit "not a number" = false
  /\ App.clean_salary (Some "not a number") = Ok 0%Q
  /\ Train.clean_salary (Some "not a number") = Ok 0%Q.
Proof.
  split; [reflexivity|].
  apply (proj2 (proj2 (proj2 clean_salary_total_nonneg)) "not a number").
  reflexivity.
Defined.

(** ** Feature assembly *)

(** C2 (the code departs from it). For a posting that has a job title
    and nothing else, [load_data] assembles the text "Clerk" followed by
    two blanks: the single-space join of the three fields, kept as it
    is.  The trimmed join, which the claim states and which the view
    computes for the same posting, is "Clerk". *)
Theorem load_data_text_keeps_outer_blanks :
  TrainData.text_column Sample.clerk_row = "Clerk  "
  /\ TrainData.load_row Sample.clerk_row = Ok (("Clerk  ", 0%Q), 0%Z)
  /\ Py.strip (Py.join " " ["Clerk"; ""; ""]) = "Clerk"
  /\ Endpoint.request_text Sample.clerk_request = "Clerk"
  /\ TrainData.text_column Sample.clerk_row
     <> Py.strip (Py.join " " ["Clerk"; ""; ""]).
Proof.
  repeat split; vm_compute; try reflexivity. discriminate.
Qed.

(** ** Blank requests *)

Lemma all_space_app (a b : string) :
  Spec.all_space (a ++ b) = Spec.all_space a && Spec.all_space b.
Proof.
  induction a as [|c a IH]; simpl; [reflexivity|].
  now rewrite IH, andb_assoc.
Qed.

Lemma all_space_sep (a b : string) :
  Spec.all_space (a ++ String " " b) = Spec.all_space a && Spec.all_space b.
Proof.
  rewrite all_space_app. reflexivity.
Qed.

Lemma rstrip_keeps_head (c : ascii) (s : string) :
  Py.isspace c = false -> exists r, Py.rstrip (String c s) = String c r.
Proof.
  intros H. simpl. destruct (Py.rstrip s).
  - rewrite H. now exists "".
  - eexists. reflexivity.
Qed.

Lemma lstrip_head (s : string) (c : ascii) (t : string) :
  Py.lstrip s = String c t -> Py.isspace c = false.
Proof.
  induction s as [|a s IH]; simpl; [discriminate|].
  destruct (Py.isspace a) eqn:E; [exact IH|].
  intros H. inversion H; subst. exact E.
Qed.

(** A stripped string is empty or starts with a character that is not
    a blank. *)
Lemma strip_all_space (s : string) :
  Spec.all_space (Py.strip s) = true -> Py.strip s = "".
Proof.
  unfold Py.strip. destruct (Py.lstrip s) as [|c t] eqn:E; [reflexivity|].
  pose proof (lstrip_head _ _ _ E) as Hc.
  destruct (rstrip_keeps_head c t Hc) as [r ->]. simpl. now rewrite Hc.
Qed.

Lemma truthy_str_false (s : string) :
  Py.truthy_str s = false <-> s = "".
Proof.
  unfold Py.truthy_str. destruct (String.eqb_spec s ""); simpl; split;
    congruence.
Qed.

Lemma truthy_str_true (s : string) :
  Py.truthy_str s = true <-> s <> "".
Proof.
  unfold Py.truthy_str. destruct (String.eqb_spec s ""); simpl; split;
    congruence.
Qed.

(** The text the view works on is empty exactly when the free-text
    field and the four discrete fields are all blank. *)
Lemma request_text_empty_iff (req : Endpoint.request) :
  Endpoint.request_text req = ""
  <-> Py.strip (Endpoint.form_get (Endpoint.form_text req)) = ""
      /\ Py.strip (Endpoint.form_get (Endpoint.form_job_title req)) = ""
      /\ Py.strip (Endpoint.form_get (Endpoint.form_salary_range req)) = ""
      /\ Py.strip (Endpoint.form_get (Endpoint.form_company_profile req)) = ""
      /\ Py.strip (Endpoint.form_get (Endpoint.form_requirements req)) = "".
Proof.
  unfold Endpoint.request_text.
  set (t := Py.strip (Endpoint.form_get (Endpoint.form_text req))).
  set (j := Py.strip (Endpoint.form_get (Endpoint.form_job_title req))).
  set (s := Py.strip (Endpoint.form_get (Endpoint.form_salary_range req))).
  set (c := Py.strip (Endpoint.form_get (Endpoint.form_company_profile req))).
  set (r := Py.strip (Endpoint.form_get (Endpoint.form_requirements req))).
  split.
  - destruct (Py.truthy_str t) eqn:Et; simpl.
    + intros H. apply truthy_str_true in Et. contradiction.
    + apply truthy_str_false in Et.
      destruct (Py.truthy_str j || Py.truthy_str s
                || Py.truthy_str c || Py.truthy_str r) eqn:E.
      * intros H. apply strip_empty_iff in H.
        change (Spec.all_space
                  (j ++ String " " (s ++ String " " (c ++ String " " r)))
                = true) in H.
        rewrite !all_space_sep in H.
        apply andb_prop in H as [Hj H]. apply andb_prop in H as [Hs H].
        apply andb_prop in H as [Hc Hr].
        repeat split; try assumption; now apply strip_all_space.
      * intros _. apply orb_false_elim in E as [E Er].
        apply orb_false_elim in E as [E Ec].
        apply orb_false_elim in E as [Ej Es].
        repeat split; try assumption; now apply truthy_str_false.
  - intros (Ht & Hj & Hs & Hc & Hr). rewrite Ht, Hj, Hs, Hc, Hr. reflexivity.
Qed.

(** ** The prediction endpoint *)

Section ServiceFacts.

Variable Artifact : Type.
Variable truthy : Artifact -> bool.
Variable model_predict :
  Artifact -> string -> Q -> result (list (result Z)).

Abbreviation world := (Endpoint.world Artifact).
Abbreviation app_state := (Endpoint.app_state Artifact).
Abbreviation load_ml := (Endpoint.load_ml Artifact truthy).
Abbreviation predict := (Endpoint.predict Artifact truthy model_predict).

(** [load_ml] never raises, and touches neither the history nor the
    record of model calls. *)
Lemma load_ml_returns (w : world) (st : app_state) :
  exists st1,
    load_ml w st = (Ok tt, st1)
    /\ Endpoint.history _ st1 = Endpoint.history _ st.
Proof.
  unfold Endpoint.load_ml, Endpoint.bind, Endpoint.get, Endpoint.try_except.
  destruct (Endpoint.truthy_slot _ truthy (Endpoint.ml_model _ st)
            && Endpoint.truthy_slot _ truthy (Endpoint.ml_vectorizer _ st)).
  - eexists; split; reflexivity.
  - destruct (Endpoint.vec_file _ w), (Endpoint.model_file _ w); simpl.
    all: eexists; split; reflexivity.
Qed.

Ltac enter_predict req Hne Hload :=
  unfold Endpoint.predict at 1;
  rewrite (proj2 (truthy_str_true _) Hne); cbn [negb];
  unfold Endpoint.bind at 1; rewrite Hload;
  unfold Endpoint.try_except, Endpoint.bind, Endpoint.get, Endpoint.lift;
  rewrite app_clean_salary_spec;
  fold (Spec.request_salary req).

(** With an incomplete cache the view answers that the model files
    are missing, and changes nothing. *)
Lemma predict_model_missing (w : world) (req : Endpoint.request)
      (st st1 : app_state) :
  Endpoint.request_text req <> "" ->
  load_ml w st = (Ok tt, st1) ->
  Endpoint.ml_vectorizer _ st1 = None \/ Endpoint.ml_model _ st1 = None ->
  predict w req st = (Ok (Endpoint.model_missing_response req), st1).
Proof.
  intros Hne Hload Hmiss. enter_predict req Hne Hload.
  destruct Hmiss as [-> | ->]; [reflexivity|].
  destruct (Endpoint.ml_vectorizer _ st1); reflexivity.
Qed.

Lemma predict_model_raises (w : world) (req : Endpoint.request)
      (st st1 : app_state) (v mdl : Artifact) (e : exn) :
  Endpoint.request_text req <> "" ->
  load_ml w st = (Ok tt, st1) ->
  Endpoint.ml_vectorizer _ st1 = Some v ->
  Endpoint.ml_model _ st1 = Some mdl ->
  model_predict mdl (Endpoint.request_text req) (Spec.request_salary req)
  = Raise e ->
  exists st',
    predict w req st = (Ok (Endpoint.failure_response req e), st')
    /\ Endpoint.history _ st' = Endpoint.history _ st1.
Proof.
  intros Hne Hload Hv Hm Hp. enter_predict req Hne Hload.
  rewrite Hv, Hm. cbn. rewrite Hp. eexists. split; reflexivity.
Qed.

Lemma predict_no_item (w : world) (req : Endpoint.request)
      (st st1 : app_state) (v mdl : Artifact) :
  Endpoint.request_text req <> "" ->
  load_ml w st = (Ok tt, st1) ->
  Endpoint.ml_vectorizer _ st1 = Some v ->
  Endpoint.ml_model _ st1 = Some mdl ->
  model_predict mdl (Endpoint.request_text req) (Spec.request_salary req)
  = Ok [] ->
  exists st',
    predict w req st
    = (Ok (Endpoint.failure_response
             req (PyExn "IndexError"
                        "index 0 is out of bounds for axis 0 with size 0")),
       st')
    /\ Endpoint.history _ st' = Endpoint.history _ st1.
Proof.
  intros Hne Hload Hv Hm Hp. enter_predict req Hne Hload.
  rewrite Hv, Hm. cbn. rewrite Hp. eexists. split; reflexivity.
Qed.

Lemma predict_int_fails (w : world) (req : Endpoint.request)
      (st st1 : app_state) (v mdl : Artifact) (rest : list (result Z))
      (e : exn) :
  Endpoint.request_text req <> "" ->
  load_ml w st = (Ok tt, st1) ->
  Endpoint.ml_vectorizer _ st1 = Some v ->
  Endpoint.ml_model _ st1 = Some mdl ->
  model_predict mdl (Endpoint.request_text req) (Spec.request_salary req)
  = Ok (Raise e :: rest) ->
  exists st',
    predict w req st = (Ok (Endpoint.failure_response req e), st')
    /\ Endpoint.history _ st' = Endpoint.history _ st1.
Proof.
  intros Hne Hload Hv Hm Hp. enter_predict req Hne Hload.
  rewrite Hv, Hm. cbn. rewrite Hp. eexists. split; reflexivity.
Qed.

Lemma predict_commit_fails (w : world) (req : Endpoint.request)
      (st st1 : app_state) (v mdl : Artifact) (p : Z)
      (rest : list (result Z))
      (e : exn) :
  Endpoint.request_text req <> "" ->
  load_ml w st = (Ok tt, st1) ->
  Endpoint.ml_vectorizer _ st1 = Some v ->
  Endpoint.ml_model _ st1 = Some mdl ->
  model_predict mdl (Endpoint.request_text req) (Spec.request_salary req)
  = Ok (Ok p :: rest) ->
  Endpoint.commit_error _ w = Some e ->
  exists st',
    predict w req st = (Ok (Endpoint.failure_response req e), st')
    /\ Endpoint.history _ st' = Endpoint.history _ st1.
Proof.
  intros Hne Hload Hv Hm Hp He. enter_predict req Hne Hload.
  rewrite Hv, Hm. cbn. rewrite Hp. cbn.
  unfold Endpoint.db_commit, Endpoint.bind. cbn. rewrite He. cbn.
  eexists. split; reflexivity.
Qed.

Lemma predict_success (w : world) (req : Endpoint.request)
      (st st1 : app_state) (v mdl : Artifact) (p : Z)
      (rest : list (result Z)) :
  Endpoint.request_text req <> "" ->
  load_ml w st = (Ok tt, st1) ->
  Endpoint.ml_vectorizer _ st1 = Some v ->
  Endpoint.ml_model _ st1 = Some mdl ->
  model_predict mdl (Endpoint.request_text req) (Spec.request_salary req)
  = Ok (Ok p :: rest) ->
  Endpoint.commit_error _ w = None ->
  exists st',
    predict w req st
    = (Ok (Endpoint.prediction_response req (Endpoint.label_of p)), st')
    /\ Endpoint.history _ st'
       = (Endpoint.history _ st1 ++ [Spec.history_row req p])%list.
Proof.
  intros Hne Hload Hv Hm Hp He. enter_predict req Hne Hload.
  rewrite Hv, Hm. cbn. rewrite Hp. cbn.
  unfold Endpoint.db_commit, Endpoint.bind. cbn. rewrite He. cbn.
  eexists. split; reflexivity.
Qed.

Lemma predict_blank (w : world) (req : Endpoint.request) (st : app_state) :
  Endpoint.request_text req = "" ->
  predict w req st = (Ok (Endpoint.input_empty_response req), st).
Proof.
  intros H. unfold Endpoint.predict. rewrite H. reflexivity.
Qed.

(** The four ways the view ends; it never lets an exception out. *)
Lemma predict_cases (w : world) (req : Endpoint.request) (st : app_state) :
  exists st',
    (Endpoint.request_text req = "" /\ st' = st
     /\ predict w req st = (Ok (Endpoint.input_empty_response req), st'))
    \/ (Endpoint.request_text req <> ""
        /\ Endpoint.history _ st' = Endpoint.history _ st
        /\ (predict w req st
            = (Ok (Endpoint.model_missing_response req), st')
            \/ exists e,
                predict w req st
                = (Ok (Endpoint.failure_response req e), st')))
    \/ (Endpoint.request_text req <> ""
        /\ exists p,
            predict w req st
            = (Ok (Endpoint.prediction_response req (Endpoint.label_of p)),
               st')
            /\ Endpoint.history _ st'
               = (Endpoint.history _ st ++ [Spec.history_row req p])%list).
Proof.
  destruct (string_dec (Endpoint.request_text req) "") as [Hb|Hne].
  { exists st. left. repeat split; [exact Hb | now apply predict_blank]. }
  destruct (load_ml_returns w st) as (st1 & Hload & Hh).
  destruct (Endpoint.ml_vectorizer _ st1) as [v|] eqn:Hv;
    [destruct (Endpoint.ml_model _ st1) as [mdl|] eqn:Hm|].
  - destruct (model_predict mdl (Endpoint.request_text req)
                            (Spec.request_salary req))
      as [[|[p|e'] rest]|e] eqn:Hp.
    + destruct (predict_no_item w req st st1 v mdl Hne Hload Hv Hm Hp)
        as (st' & Hrun & Hh').
      exists st'. right; left. split; [exact Hne|]. split; [congruence|].
      right. eexists. exact Hrun.
    + destruct (Endpoint.commit_error _ w) as [e|] eqn:He.
      * destruct (predict_commit_fails w req st st1 v mdl p rest e
                    Hne Hload Hv Hm Hp He) as (st' & Hrun & Hh').
        exists st'. right; left. split; [exact Hne|]. split; [congruence|].
        right. eexists. exact Hrun.
      * destruct (predict_success w req st st1 v mdl p rest
                    Hne Hload Hv Hm Hp He) as (st' & Hrun & Hh').
        exists st'. right; right. split; [exact Hne|]. exists p.
        split; [exact Hrun | congruence].
    + destruct (predict_int_fails w req st st1 v mdl rest e'
                  Hne Hload Hv Hm Hp) as (st' & Hrun & Hh').
      exists st'. right; left. split; [exact Hne|]. split; [congruence|].
      right. eexists. exact Hrun.
    + destruct (predict_model_raises w req st st1 v mdl e
                  Hne Hload Hv Hm Hp) as (st' & Hrun & Hh').
      exists st'. right; left. split; [exact Hne|]. split; [congruence|].
      right. eexists. exact Hrun.
  - exists st1. right; left. split; [exact Hne|]. split; [exact Hh|].
    left. apply predict_model_missing; auto.
  - exists st1. right; left. split; [exact Hne|]. split; [exact Hh|].
    left. apply predict_model_missing; auto.
Qed.

Lemma label_of_two_values (p : Z) :
  Endpoint.label_of p = "Fake Job Posting"
  \/ Endpoint.label_of p = "Real Job Posting".
Proof.
  unfold Endpoint.label_of. destruct (p =? 1)%Z; [now left | now right].
Qed.

Lemma other_responses_differ (req : Endpoint.request) :
  Endpoint.model_missing_response req <> Endpoint.input_empty_response req
  /\ (forall e,
         Endpoint.failure_response req e
         <> Endpoint.input_empty_response req)
  /\ (forall p,
         Endpoint.prediction_response req (Endpoint.label_of p)
         <> Endpoint.input_empty_response req).
Proof.
  unfold Endpoint.model_missing_response, Endpoint.failure_response,
    Endpoint.prediction_response, Endpoint.input_empty_response.
  repeat split; intros; destruct (Endpoint.xhr req); try discriminate.
  destruct (label_of_two_values p) as [-> | ->]; vm_compute; discriminate.
Qed.

(** C7. The view answers with the empty-input error exactly when the
    free-text field and the discrete fields (job title, salary range,
    company profile, requirements) are all blank; it then returns at
    once: nothing is loaded, the model is not called and the state is
    the one it started from. *)
Theorem predict_input_empty_iff_all_blank :
  forall (w : world) (req : Endpoint.request) (st : app_state),
    let all_blank :=
      Py.strip (Endpoint.form_get (Endpoint.form_text req)) = ""
      /\ Py.strip (Endpoint.form_get (Endpoint.form_job_title req)) = ""
      /\ Py.strip (Endpoint.form_get (Endpoint.form_salary_range req)) = ""
      /\ Py.strip (Endpoint.form_get (Endpoint.form_company_profile req)) = ""
      /\ Py.strip (Endpoint.form_get (Endpoint.form_requirements req)) = ""
    in
    (all_blank ->
     predict w req st = (Ok (Endpoint.input_empty_response req), st))
    /\ (~ all_blank ->
        exists resp st',
          predict w req st = (Ok resp, st')
          /\ resp <> Endpoint.input_empty_response req).
Proof.
  intros w req st all_blank. split.
  - intros H. apply predict_blank. now apply request_text_empty_iff.
  - intros H.
    destruct (other_responses_differ req) as (Dm & Df & Dp).
    destruct (predict_cases w req st)
      as (st' & [(Hb & _) | [(_ & _ & [Hr | (e & Hr)]) | (_ & p & Hr & _)]]).
    + exfalso. apply H. now apply request_text_empty_iff.
    + eauto.
    + eauto.
    + eauto.
Qed.

(** What the four kinds of answer are, written out. *)
Lemma answers_written_out (req : Endpoint.request) :
  Endpoint.input_empty_response req
  = (if Endpoint.xhr req
     then Endpoint.Json "error" "Please provide job details." 400
     else Endpoint.FlashRedirect
            "Please fill all fields before predicting." "warning")
  /\ Endpoint.model_missing_response req
     = (if Endpoint.xhr req
        then Endpoint.Json
               "error" "Model files missing. Please run train.py first." 500
        else Endpoint.FlashRedirect
               "Model files missing. Please run train.py first." "danger")
  /\ (forall e,
         Endpoint.failure_response req e
         = (if Endpoint.xhr req
            then Endpoint.Json "error" (exn_str e) 500
            else Endpoint.FlashRedirect
                   ("Prediction failed: " ++ exn_str e) "danger"))
  /\ (forall p,
         Endpoint.prediction_response req (Endpoint.label_of p)
         = (if Endpoint.xhr req
            then Endpoint.Json
                   "prediction"
                   (if (p =? 1)%Z then "Fake Job Posting"
                    else "Real Job Posting") 200
            else if (p =? 1)%Z
                 then Endpoint.FlashRedirect
                        (String "226" (String "154" (String "160"
                           (String "239" (String "184" (String "143"
                              " Prediction: Fake Job Posting"))))))
                        "danger"
                 else Endpoint.FlashRedirect
                        (String "226" (String "156" (String "133"
                           " Prediction: Real Job Posting")))
                        "success")).
Proof.
  split; [reflexivity|]. split; [reflexivity|]. split; [reflexivity|].
  intros p. unfold Endpoint.prediction_response, Endpoint.label_of.
  destruct (Endpoint.xhr req), (p =? 1)%Z; reflexivity.
Qed.

(** C8. A raw output 1 is labelled "Fake Job Posting" and a raw output
    0 "Real Job Posting"; the label of any raw output is one of these
    two strings.  A prediction that goes through answers the caller with
    the label of the first item the model gave: as JSON with status 200,
    or flashed after its pictograph, a warning sign and "danger" for the
    fake label, a check mark and "success" for the real one; and the
    same label is written to the history.  Whatever the view returns is
    an error answer or one of these four prediction answers. *)
Theorem label_mapping_is_fixed :
  Endpoint.label_of 1 = "Fake Job Posting"
  /\ Endpoint.label_of 0 = "Real Job Posting"
  /\ (forall p : Z,
         Endpoint.label_of p = "Fake Job Posting"
         \/ Endpoint.label_of p = "Real Job Posting")
  /\ (forall (w : world) (req : Endpoint.request) (st st1 : app_state)
             (v mdl : Artifact) (p : Z) (rest : list (result Z)),
         Endpoint.request_text req <> "" ->
         load_ml w st = (Ok tt, st1) ->
         Endpoint.ml_vectorizer _ st1 = Some v ->
         Endpoint.ml_model _ st1 = Some mdl ->
         model_predict mdl (Endpoint.request_text req)
                       (Spec.request_salary req) = Ok (Ok p :: rest) ->
         Endpoint.commit_error _ w = None ->
         exists st',
           predict w req st
           = (Ok (if Endpoint.xhr req
                  then Endpoint.Json
                         "prediction"
                         (if (p =? 1)%Z then "Fake Job Posting"
                          else "Real Job Posting") 200
                  else if (p =? 1)%Z
                       then Endpoint.FlashRedirect
                              (String "226" (String "154" (String "160"
                                 (String "239" (String "184" (String "143"
                                    " Prediction: Fake Job Posting"))))))
                              "danger"
                       else Endpoint.FlashRedirect
                              (String "226" (String "156" (String "133"
                                 " Prediction: Real Job Posting")))
                              "success"),
              st')
           /\ Endpoint.history _ st'
              = (Endpoint.history _ st1
                 ++ [{| Endpoint.ph_text := Endpoint.request_text req;
                        Endpoint.ph_prediction :=
                          if (p =? 1)%Z then "Fake Job Posting"
                          else "Real Job Posting";
                        Endpoint.ph_user_id := Endpoint.user_id req |}])%list)
  /\ (forall (w : world) (req : Endpoint.request) (st : app_state),
         exists resp st',
           predict w req st = (Ok resp, st')
           /\ ((exists msg status,
                   resp = Endpoint.Json "error" msg status
                   /\ (status = 400 \/ status = 500)%Z)
               \/ resp = Endpoint.Json "prediction" "Fake Job Posting" 200
               \/ resp = Endpoint.Json "prediction" "Real Job Posting" 200
               \/ resp = Endpoint.FlashRedirect
                           "Please fill all fields before predicting."
                           "warning"
               \/ resp = Endpoint.FlashRedirect
                           "Model files missing. Please run train.py first."
                           "danger"
               \/ (exists e,
                      resp = Endpoint.FlashRedirect
                               ("Prediction failed: " ++ exn_str e) "danger")
               \/ resp = Endpoint.FlashRedirect
                           (String "226" (String "154" (String "160"
                              (String "239" (String "184" (String "143"
                                 " Prediction: Fake Job Posting"))))))
                           "danger"
               \/ resp = Endpoint.FlashRedirect
                           (String "226" (String "156" (String "133"
                              " Prediction: Real Job Posting")))
                           "success")).
Proof.
  split; [reflexivity|]. split; [reflexivity|].
  split; [exact label_of_two_values|]. split.
  - intros w req st st1 v mdl p rest Hne Hload Hv Hm Hp He.
    destruct (predict_success w req st st1 v mdl p rest Hne Hload Hv Hm Hp He)
      as (st' & Hrun & Hh).
    destruct (answers_written_out req) as (_ & _ & _ & Hpred).
    exists st'. rewrite <- (Hpred p). split; [exact Hrun|].
    exact Hh.
  - intros w req st.
    destruct (answers_written_out req) as (Hin & Hmiss & Hfail & Hpred).
    destruct (predict_cases w req st)
      as (st' & [(_ & _ & Hr) | [(_ & _ & [Hr | (e & Hr)])
                                | (_ & p & Hr & _)]]).
    + rewrite Hin in Hr. do 2 eexists. split; [exact Hr|].
      destruct (Endpoint.xhr req); [left; eauto | eauto 8].
    + rewrite Hmiss in Hr. do 2 eexists. split; [exact Hr|].
      destruct (Endpoint.xhr req); [left; eauto | eauto 8].
    + rewrite Hfail in Hr. do 2 eexists. split; [exact Hr|].
      destruct (Endpoint.xhr req); [left; eauto | eauto 8].
    + rewrite Hpred in Hr. do 2 eexists. split; [exact Hr|].
      destruct (Endpoint.xhr req), (p =? 1)%Z; auto 10.
Qed.

(** C10. Once the input has passed the blank check and the two
    artifacts are in the cache, an exception raised by the model, by
    reading the first item of an empty result, by the conversion of
    that item to an integer, or by the commit, is caught: the view
    returns an error answer that carries the exception's message (JSON
    "error" with status 500, or the flashed "Prediction failed: ..."
    with "danger"), and the stored history is what it was.  And on
    every input the view returns an answer; no exception leaves it. *)
Theorem predict_failure_is_caught :
  (forall (w : world) (req : Endpoint.request) (st st1 : app_state)
          (v mdl : Artifact) (e : exn),
      Endpoint.request_text req <> "" ->
      load_ml w st = (Ok tt, st1) ->
      Endpoint.ml_vectorizer _ st1 = Some v ->
      Endpoint.ml_model _ st1 = Some mdl ->
      (model_predict mdl (Endpoint.request_text req)
                     (Spec.request_salary req) = Raise e
       \/ (model_predict mdl (Endpoint.request_text req)
                         (Spec.request_salary req) = Ok []
           /\ e = PyExn "IndexError"
                        "index 0 is out of bounds for axis 0 with size 0")
       \/ (exists rest,
              model_predict mdl (Endpoint.request_text req)
                            (Spec.request_salary req) = Ok (Raise e :: rest))
       \/ (exists p rest,
              model_predict mdl (Endpoint.request_text req)
                            (Spec.request_salary req) = Ok (Ok p :: rest)
              /\ Endpoint.commit_error _ w = Some e)) ->
      exists st',
        predict w req st
        = (Ok (if Endpoint.xhr req
               then Endpoint.Json "error" (exn_str e) 500
               else Endpoint.FlashRedirect
                      ("Prediction failed: " ++ exn_str e) "danger"),
           st')
        /\ Endpoint.history _ st' = Endpoint.history _ st)
  /\ (forall (w : world) (req : Endpoint.request) (st : app_state),
         exists resp st', predict w req st = (Ok resp, st')).
Proof.
  split.
  - intros w req st st1 v mdl e Hne Hload Hv Hm Hfail.
    destruct (load_ml_returns w st) as (st1' & Hload' & Hh).
    assert (st1' = st1) by congruence. subst st1'.
    change (if Endpoint.xhr req
            then Endpoint.Json "error" (exn_str e) 500
            else Endpoint.FlashRedirect
                   ("Prediction failed: " ++ exn_str e) "danger")
      with (Endpoint.failure_response req e).
    destruct Hfail as [Hp | [[Hp ->] | [(rest & Hp)
                                       | (p & rest & Hp & He)]]].
    + destruct (predict_model_raises w req st st1 v mdl e
                  Hne Hload Hv Hm Hp) as (st' & Hrun & Hh').
      exists st'. split; [exact Hrun | congruence].
    + destruct (predict_no_item w req st st1 v mdl Hne Hload Hv Hm Hp)
        as (st' & Hrun & Hh').
      exists st'. split; [exact Hrun | congruence].
    + destruct (predict_int_fails w req st st1 v mdl rest e
                  Hne Hload Hv Hm Hp) as (st' & Hrun & Hh').
      exists st'. split; [exact Hrun | congruence].
    + destruct (predict_commit_fails w req st st1 v mdl p rest e
                  Hne Hload Hv Hm Hp He) as (st' & Hrun & Hh').
      exists st'. split; [exact Hrun | congruence].
  - intros w req st.
    destruct (predict_cases w req st)
      as (st' & [(_ & _ & Hr) | [(_ & _ & [Hr | (e & Hr)])
                                | (_ & p & Hr & _)]]); eauto.
Qed.

(** What [load_ml] does to the cache when it goes to the files: a
    vectorizer file that loads fills its slot; the model file is read
    only if the vectorizer file did not fail, and fills its slot when
    it loads; a slot whose file was not loaded keeps what it held. *)
Lemma load_ml_from_files (w : world) (st : app_state) :
  Endpoint.truthy_slot _ truthy (Endpoint.ml_model _ st)
  && Endpoint.truthy_slot _ truthy (Endpoint.ml_vectorizer _ st) = false ->
  exists st1,
    load_ml w st = (Ok tt, st1)
    /\ Endpoint.history _ st1 = Endpoint.history _ st
    /\ Endpoint.ml_vectorizer _ st1
       = match Endpoint.vec_file _ w with
         | Endpoint.Stored _ a => Some a
         | _ => Endpoint.ml_vectorizer _ st
         end
    /\ Endpoint.ml_model _ st1
       = match Endpoint.vec_file _ w, Endpoint.model_file _ w with
         | Endpoint.Corrupt _ _, _ => Endpoint.ml_model _ st
         | _, Endpoint.Stored _ b => Some b
         | _, _ => Endpoint.ml_model _ st
         end.
Proof.
  intros Hguard.
  unfold Endpoint.load_ml, Endpoint.bind, Endpoint.get, Endpoint.try_except.
  rewrite Hguard.
  destruct (Endpoint.vec_file _ w), (Endpoint.model_file _ w); cbn;
    eexists; (split; [reflexivity|]); cbn; auto.
Qed.

(** With an empty slot, [load_ml] goes back to the files: when both
    now hold an artifact, both are loaded. *)
Lemma load_ml_retries (w : world) (st : app_state) (v m : Artifact) :
  Endpoint.ml_vectorizer _ st = None \/ Endpoint.ml_model _ st = None ->
  Endpoint.vec_file _ w = Endpoint.Stored _ v ->
  Endpoint.model_file _ w = Endpoint.Stored _ m ->
  exists st1,
    load_ml w st = (Ok tt, st1)
    /\ Endpoint.ml_vectorizer _ st1 = Some v
    /\ Endpoint.ml_model _ st1 = Some m
    /\ In (Endpoint.LoadFile Endpoint.ModelPath) (Endpoint.trace _ st1).
Proof.
  intros Hslot Ev Em.
  unfold Endpoint.load_ml, Endpoint.bind, Endpoint.get, Endpoint.try_except.
  assert (Hguard : Endpoint.truthy_slot _ truthy (Endpoint.ml_model _ st)
                   && Endpoint.truthy_slot _ truthy
                        (Endpoint.ml_vectorizer _ st) = false).
  { destruct Hslot as [-> | ->]; cbn; [apply andb_false_r | reflexivity]. }
  rewrite Hguard, Ev, Em. cbn.
  eexists. split; [reflexivity|]. cbn. auto.
Qed.

(** C6 (amended). When loading an artifact that is not in the cache
    fails (its file is absent or cannot be deserialised, or the
    vectorizer file fails before the model file is read), a prediction
    on a non-blank input answers that the model files are missing (JSON
    "error" with status 500, or the message flashed with "danger"),
    without raising and without touching the history.  The cache is
    left incomplete, not emptied: an artifact that did load stays in
    its slot, a slot whose file was not loaded keeps what it held, and
    one slot at least is empty; so the next [load_ml] goes back to the
    files and loads both once they are there. *)
Theorem load_failure_reports_model_missing :
  forall (w : world) (req : Endpoint.request) (st : app_state),
    Endpoint.request_text req <> "" ->
    (Endpoint.ml_vectorizer _ st = None
     /\ forall a, Endpoint.vec_file _ w <> Endpoint.Stored _ a)
    \/ (Endpoint.ml_model _ st = None
        /\ ((forall a, Endpoint.model_file _ w <> Endpoint.Stored _ a)
            \/ exists e, Endpoint.vec_file _ w = Endpoint.Corrupt _ e)) ->
    exists st',
      predict w req st
      = (Ok (if Endpoint.xhr req
             then Endpoint.Json
                    "error" "Model files missing. Please run train.py first."
                    500
             else Endpoint.FlashRedirect
                    "Model files missing. Please run train.py first."
                    "danger"),
         st')
      /\ Endpoint.history _ st' = Endpoint.history _ st
      /\ (forall a,
             Endpoint.vec_file _ w = Endpoint.Stored _ a ->
             Endpoint.ml_vectorizer _ st' = Some a)
      /\ ((forall a, Endpoint.vec_file _ w <> Endpoint.Stored _ a) ->
          Endpoint.ml_vectorizer _ st' = Endpoint.ml_vectorizer _ st)
      /\ (forall b,
             Endpoint.model_file _ w = Endpoint.Stored _ b ->
             (forall e, Endpoint.vec_file _ w <> Endpoint.Corrupt _ e) ->
             Endpoint.ml_model _ st' = Some b)
      /\ ((forall b, Endpoint.model_file _ w <> Endpoint.Stored _ b)
          \/ (exists e, Endpoint.vec_file _ w = Endpoint.Corrupt _ e) ->
          Endpoint.ml_model _ st' = Endpoint.ml_model _ st)
      /\ (Endpoint.ml_vectorizer _ st' = None
          \/ Endpoint.ml_model _ st' = None)
      /\ (forall (w2 : world) (v m : Artifact),
             Endpoint.vec_file _ w2 = Endpoint.Stored _ v ->
             Endpoint.model_file _ w2 = Endpoint.Stored _ m ->
             exists st'',
               load_ml w2 st' = (Ok tt, st'')
               /\ Endpoint.ml_vectorizer _ st'' = Some v
               /\ Endpoint.ml_model _ st'' = Some m).
Proof.
  intros w req st Hne Hfail.
  assert (Hguard : Endpoint.truthy_slot _ truthy (Endpoint.ml_model _ st)
                   && Endpoint.truthy_slot _ truthy
                        (Endpoint.ml_vectorizer _ st) = false).
  { destruct Hfail as [[-> _] | [-> _]]; cbn;
      [apply andb_false_r | reflexivity]. }
  destruct (load_ml_from_files w st Hguard) as (st1 & Hload & Hh & Hv & Hm).
  assert (Hslot : Endpoint.ml_vectorizer _ st1 = None
                  \/ Endpoint.ml_model _ st1 = None).
  { rewrite Hv, Hm.
    destruct Hfail as [[Hnone Hfile] | [Hnone [Hfile | (e & Hfile)]]].
    - left. destruct (Endpoint.vec_file _ w) as [|e|a]; auto.
      now destruct (Hfile a).
    - right. destruct (Endpoint.vec_file _ w);
        destruct (Endpoint.model_file _ w) as [|e'|b]; auto;
        now destruct (Hfile b).
    - right. now rewrite Hfile. }
  exists st1.
  split; [exact (predict_model_missing w req st st1 Hne Hload Hslot)|].
  split; [exact Hh|].
  split.
  { intros a Ea. now rewrite Hv, Ea. }
  split.
  { intros Hno. rewrite Hv.
    destruct (Endpoint.vec_file _ w) as [|e|a]; auto. now destruct (Hno a). }
  split.
  { intros b Eb Hnc. rewrite Hm, Eb.
    destruct (Endpoint.vec_file _ w) as [|e|a]; auto. now destruct (Hnc e). }
  split.
  { intros Hno. rewrite Hm. destruct Hno as [Hno | (e & ->)]; [|reflexivity].
    destruct (Endpoint.vec_file _ w);
      destruct (Endpoint.model_file _ w) as [|e'|b]; auto;
      now destruct (Hno b). }
  split; [exact Hslot|].
  intros w2 v m Ev Em.
  destruct (load_ml_retries w2 st1 v m Hslot Ev Em)
    as (st2 & Hl & Hv2 & Hm2 & _).
  exists st2. auto.
Qed.

End ServiceFacts.

(** ** The endpoint on concrete requests *)

Lemma predict_input_empty_iff_all_blank_witness :
  Endpoint.predict unit Sample.any_truthy (Sample.answers 1)
                   Sample.both_files Sample.blank_request Sample.cold
  = (Ok (Endpoint.input_empty_response Sample.blank_request), Sample.cold).
Proof.
  apply (proj1 (predict_input_empty_iff_all_blank
                  unit Sample.any_truthy (Sample.answers 1)
                  Sample.both_files Sample.blank_request Sample.cold)).
  repeat split; reflexivity.
Defined.

Lemma label_mapping_is_fixed_witness :
  exists st',
    Endpoint.predict unit Sample.any_truthy (Sample.answers 1)
                     Sample.both_files Sample.discrete_request Sample.cold
    = (Ok (Endpoint.Json "prediction" "Fake Job Posting" 200), st')
    /\ Endpoint.history _ st'
       = [{| Endpoint.ph_text := "Engineer 50,000 Acme Python";
             Endpoint.ph_prediction := "Fake Job Posting";
             Endpoint.ph_user_id := 7 |}].
Proof.
  refine (proj1 (proj2 (proj2 (proj2
            (label_mapping_is_fixed unit Sample.any_truthy
                                    (Sample.answers 1)))))
            Sample.both_files Sample.discrete_request Sample.cold
            _ tt tt 1%Z [] _ eq_refl eq_refl eq_refl eq_refl eq_refl).
  vm_compute. discriminate.
Defined.

Lemma predict_failure_is_caught_witness :
  exists st',
    Endpoint.predict unit Sample.any_truthy Sample.broken
                     Sample.both_files Sample.discrete_request Sample.cold
    = (Ok (Endpoint.Json "error" "Input contains NaN" 500), st')
    /\ Endpoint.history _ st' = [].
Proof.
  refine (proj1 (predict_failure_is_caught unit Sample.any_truthy
                                           Sample.broken)
            Sample.both_files Sample.discrete_request Sample.cold
            _ tt tt (PyExn "ValueError" "Input contains NaN")
            _ eq_refl eq_refl eq_refl (or_introl eq_refl)).
  vm_compute. discriminate.
Defined.

(** C6 as stated fails: with the vectorizer file in place and the model
    file absent, the prediction reports the missing model, and the
    vectorizer that was loaded stays in the cache. *)
Lemma load_failure_keeps_loaded_vectorizer :
  let run := Endpoint.predict unit Sample.any_truthy (Sample.answers 1)
               Sample.no_model_file Sample.discrete_request Sample.cold in
  fst run = Ok (Endpoint.model_missing_response Sample.discrete_request)
  /\ ~ (Endpoint.ml_vectorizer _ (snd run) = None
        /\ Endpoint.ml_model _ (snd run) = None).
Proof.
  split; [reflexivity|]. intros [H _]. vm_compute in H. discriminate.
Qed.

Lemma load_failure_reports_model_missing_witness :
  exists st',
    Endpoint.predict unit Sample.any_truthy (Sample.answers 1)
                     Sample.no_model_file Sample.discrete_request Sample.cold
    = (Ok (Endpoint.Json
             "error" "Model files missing. Please run train.py first." 500),
       st')
    /\ Endpoint.history _ st' = []
    /\ Endpoint.ml_vectorizer _ st' = Some tt
    /\ Endpoint.ml_model _ st' = None.
Proof.
  destruct (load_failure_reports_model_missing
              unit Sample.any_truthy (Sample.answers 1)
              Sample.no_model_file Sample.discrete_request Sample.cold)
    as (st' & Hrun & Hh & Hv & _ & _ & Hm & _).
  - vm_compute. discriminate.
  - right. split; [reflexivity|]. left. intros a. vm_compute. discriminate.
  - exists st'. split; [exact Hrun|]. split; [exact Hh|].
    split; [apply Hv; reflexivity|].
    apply Hm. left. intros b. vm_compute. discriminate.
Defined.

(** C1 (the code departs from it). For one and the same posting, the
    view passes the model a text that has the raw salary string between
    the job title and the company profile, where [load_data] built the
    training text from the three textual fields only; the salary value
    is the same on both sides. *)
Theorem inference_text_carries_salary_string :
  Endpoint.request_text Sample.discrete_request
  = "Engineer 50,000 Acme Python"
  /\ TrainData.load_row Sample.discrete_row
     = Ok (("Engineer Acme Python", 50000%Q), 0%Z)
  /\ Endpoint.trace _
       (snd (Endpoint.predict unit Sample.any_truthy (Sample.answers 0)
               Sample.both_files Sample.discrete_request Sample.cold))
     = [Endpoint.DbCommit (Spec.history_row Sample.discrete_request 0);
        Endpoint.ModelPredict "Engineer 50,000 Acme Python" 50000%Q;
        Endpoint.LoadFile Endpoint.ModelPath;
        Endpoint.LoadFile Endpoint.VecPath].
Proof.
  repeat split; vm_compute; reflexivity.
Qed.

(** ** Oversampling *)

Section ResamplerFacts.

Variable Row : Type.
Variable rng : Type.
Variable seed_rng : Z -> rng.
Variable randint : rng -> nat -> nat -> nat.

Abbreviation count := (Resampler.count Row).
Abbreviation of_class := (Resampler.of_class Row).
Abbreviation draws := (Resampler.draws Row rng randint).
Abbreviation balance := (Resampler.balance Row rng seed_rng randint).

Lemma label_eqb_eq (a b : Resampler.label) :
  Resampler.label_eqb a b = true <-> a = b.
Proof.
  destruct a, b; simpl; split; congruence.
Qed.

Lemma count_app (c : Resampler.label) (a b : list (Row * Resampler.label)) :
  count c (a ++ b) = (count c a + count c b)%nat.
Proof.
  unfold Resampler.count. now rewrite filter_app, length_app.
Qed.

Lemma of_class_In (c : Resampler.label) (data : list (Row * Resampler.label))
      (e : Row * Resampler.label) :
  In e (of_class c data) <-> In e data /\ snd e = c.
Proof.
  unfold Resampler.of_class. rewrite filter_In.
  now rewrite label_eqb_eq.
Qed.

Lemma of_class_length (c : Resampler.label)
      (data : list (Row * Resampler.label)) :
  List.length (of_class c data) = count c data.
Proof.
  reflexivity.
Qed.

(** Every draw is an element of the pool. *)
Lemma draws_In (g : rng) (pool : list (Row * Resampler.label)) (k : nat)
      (e : Row * Resampler.label) :
  In e (draws g pool k) -> In e pool.
Proof.
  unfold Resampler.draws. rewrite in_flat_map.
  intros (i & _ & Hi).
  destruct (nth_error pool _) as [x|] eqn:E; [|contradiction].
  destruct Hi as [<- | []]. exact (nth_error_In _ _ E).
Qed.

Lemma flat_map_singletons {A B} (f : A -> list B) (l : list A) :
  (forall x, List.length (f x) = 1%nat) ->
  List.length (flat_map f l) = List.length l.
Proof.
  intros H. induction l as [|x l IH]; simpl; [reflexivity|].
  now rewrite length_app, H, IH.
Qed.

(** A pool that is not empty gives exactly [k] draws. *)
Lemma draws_length (g : rng) (pool : list (Row * Resampler.label))
      (k : nat) :
  pool <> [] -> List.length (draws g pool k) = k.
Proof.
  intros Hne. unfold Resampler.draws.
  rewrite flat_map_singletons; [apply length_seq|].
  intros i.
  destruct (nth_error pool _) as [x|] eqn:E; [reflexivity|].
  apply nth_error_None in E.
  assert (List.length pool <> 0%nat)
    by (destruct pool; [congruence | discriminate]).
  pose proof (Nat.mod_upper_bound
                (randint g i (List.length pool)) (List.length pool) H).
  lia.
Qed.

Lemma count_same_class (c : Resampler.label)
      (l : list (Row * Resampler.label)) :
  (forall e, In e l -> snd e = c) -> count c l = List.length l.
Proof.
  unfold Resampler.count. induction l as [|x l IH]; intros H;
    [reflexivity|].
  simpl. rewrite (proj2 (label_eqb_eq (snd x) c) (H x (or_introl eq_refl))).
  simpl. f_equal. apply IH. intros e He. apply H. now right.
Qed.

Lemma count_other_class (c c' : Resampler.label)
      (l : list (Row * Resampler.label)) :
  c <> c' -> (forall e, In e l -> snd e = c) -> count c' l = 0%nat.
Proof.
  unfold Resampler.count. intros Hc. induction l as [|x l IH]; intros H;
    [reflexivity|].
  simpl. destruct (Resampler.label_eqb (snd x) c') eqn:E.
  - apply label_eqb_eq in E. rewrite (H x (or_introl eq_refl)) in E.
    contradiction.
  - apply IH. intros e He. apply H. now right.
Qed.

(** C9 (amended). For every training set in which both classes occur,
    with unequal counts, the resampling step returns the set followed
    by added examples; after it both classes have the count of the
    majority class; every added example is one of the original examples
    of the minority class, features and label unchanged; and the result
    is fixed by the seed 42, whatever the state of the ambient
    generator. *)
Theorem balance_oversamples_minority :
  forall (ambient : rng) (data : list (Row * Resampler.label)),
    count Resampler.REAL data <> count Resampler.FAKE data ->
    (0 < count Resampler.REAL data)%nat ->
    (0 < count Resampler.FAKE data)%nat ->
    let minority :=
      if (count Resampler.REAL data <? count Resampler.FAKE data)%nat
      then Resampler.REAL else Resampler.FAKE in
    exists added,
      balance ambient data = Some (data ++ added)%list
      /\ count Resampler.REAL (data ++ added)
         = count Resampler.FAKE (data ++ added)
      /\ count Resampler.REAL (data ++ added)
         = Nat.max (count Resampler.REAL data) (count Resampler.FAKE data)
      /\ (forall e, In e added -> In e data /\ snd e = minority)
      /\ (forall ambient' : rng,
             balance ambient' data = balance ambient data).
Proof.
  intros ambient data Hneq Hr Hf minority.
  unfold Resampler.balance, Resampler.fit_resample.
  destruct (Nat.eqb_spec (count Resampler.REAL data)
                         (count Resampler.FAKE data)) as [|_];
    [contradiction|].
  fold minority.
  assert (Hpool : of_class minority data <> []).
  { intros E. apply (f_equal (@List.length _)) in E.
    rewrite of_class_length in E. simpl in E.
    subst minority.
    destruct (count Resampler.REAL data <? count Resampler.FAKE data)%nat;
      lia. }
  set (k := (Nat.max (count Resampler.REAL data) (count Resampler.FAKE data)
             - Nat.min (count Resampler.REAL data)
                       (count Resampler.FAKE data))%nat).
  set (added := draws (seed_rng 42) (of_class minority data) k).
  assert (Hadded : forall e, In e added -> In e data /\ snd e = minority).
  { intros e He. apply of_class_In. exact (draws_In _ _ _ _ He). }
  assert (Hlen : List.length added = k)
    by (apply draws_length; exact Hpool).
  exists added.
  split.
  { destruct (of_class minority data); [congruence | reflexivity]. }
  assert (Hcounts :
            count Resampler.REAL (data ++ added)
            = Nat.max (count Resampler.REAL data)
                      (count Resampler.FAKE data)
            /\ count Resampler.FAKE (data ++ added)
               = Nat.max (count Resampler.REAL data)
                         (count Resampler.FAKE data)).
  { rewrite !count_app. subst minority.
    destruct (Nat.ltb_spec (count Resampler.REAL data)
                           (count Resampler.FAKE data)) as [Hlt | Hge].
    - rewrite (count_same_class Resampler.REAL added
                 (fun e He => proj2 (Hadded e He))).
      rewrite (count_other_class Resampler.REAL Resampler.FAKE added
                 ltac:(discriminate) (fun e He => proj2 (Hadded e He))).
      rewrite Hlen. subst k. lia.
    - rewrite (count_same_class Resampler.FAKE added
                 (fun e He => proj2 (Hadded e He))).
      rewrite (count_other_class Resampler.FAKE Resampler.REAL added
                 ltac:(discriminate) (fun e He => proj2 (Hadded e He))).
      rewrite Hlen. subst k. lia. }
  destruct Hcounts as [HR HF].
  split; [congruence|]. split; [exact HR|]. split; [exact Hadded|].
  reflexivity.
Qed.

End ResamplerFacts.

Lemma balance_oversamples_minority_witness :
  exists added,
    Resampler.balance nat Z Sample.seed_state Sample.counter_draw
                      0%Z Sample.unbalanced
    = Some (Sample.unbalanced ++ added)%list
    /\ Resampler.count nat Resampler.REAL (Sample.unbalanced ++ added)
       = Resampler.count nat Resampler.FAKE (Sample.unbalanced ++ added)
    /\ Resampler.count nat Resampler.REAL (Sample.unbalanced ++ added)
       = 3%nat
    /\ (forall e,
           In e added -> In e Sample.unbalanced /\ snd e = Resampler.FAKE)
    /\ (forall ambient' : Z,
           Resampler.balance nat Z Sample.seed_state Sample.counter_draw
                             ambient' Sample.unbalanced
           = Resampler.balance nat Z Sample.seed_state Sample.counter_draw
                               0%Z Sample.unbalanced).
Proof.
  apply (balance_oversamples_minority
           nat Z Sample.seed_state Sample.counter_draw 0%Z Sample.unbalanced).
  - vm_compute. discriminate.
  - vm_compute. lia.
  - vm_compute. lia.
Defined.

(** C9 as stated fails on a set with one class only: its counts are
    unequal, there is no minority example to duplicate, and the
    resampling step gives no balanced set. *)
Lemma one_class_set_is_not_balanced :
  Resampler.count nat Resampler.REAL Sample.one_class
  <> Resampler.count nat Resampler.FAKE Sample.one_class
  /\ ~ (exists out,
          Resampler.balance nat Z Sample.seed_state Sample.counter_draw
                            0%Z Sample.one_class
          = Some out
          /\ Resampler.count nat Resampler.REAL out
             = Resampler.count nat Resampler.FAKE out).
Proof.
  split; [vm_compute; discriminate|].
  intros (out & H & _). vm_compute in H. discriminate.
Qed.

(** ** How [findall] splits a salary string *)

Lemma findall_unfold (c : ascii) (s : string) :
  Py.findall (String c s)
  = match Py.match_number (String c s) with
    | Some (m, rest) => m :: Py.findall rest
    | None => Py.findall s
    end.
Proof.
  unfold Py.findall at 1. cbn [String.length Py.findall_fuel].
  destruct (Py.match_number (String c s)) as [[m rest]|] eqn:E.
  - f_equal. apply findall_fuel_enough.
    pose proof (match_number_shorter _ _ _ E) as H. simpl in H. lia.
  - reflexivity.
Qed.

Lemma span_digits_no_digit_head (t : string) :
  match t with
  | EmptyString => True
  | String c _ => Py.isdigit c = false
  end ->
  Py.span_digits t = ("", t).
Proof.
  destruct t as [|c t]; simpl; [reflexivity|]. now intros ->.
Qed.

Lemma span_digits_app (s t d r : string) :
  Py.span_digits s = (d, r) ->
  match t with
  | EmptyString => True
  | String c _ => Py.isdigit c = false
  end ->
  Py.span_digits (s ++ t) = (d, r ++ t).
Proof.
  revert d r. induction s as [|c s IH]; intros d r Hs Ht.
  - simpl in Hs. inversion Hs; subst. simpl.
    now apply span_digits_no_digit_head.
  - simpl in Hs |- *. destruct (Py.isdigit c).
    + destruct (Py.span_digits s) as [d' r'] eqn:E.
      inversion Hs; subst. now rewrite (IH d' r eq_refl Ht).
    + inversion Hs; subst. reflexivity.
Qed.

Lemma clean_break_head (t : string) :
  Spec.clean_break t = true ->
  match t with
  | EmptyString => True
  | String c _ => Py.isdigit c = false
  end.
Proof.
  destruct t as [|c t]; simpl; [trivial|].
  intros H. apply andb_prop in H as [H _]. now apply negb_true_iff in H.
Qed.

(** A match in [s] is the same match in [s ++ t] when [t] is a clean
    break. *)
Lemma match_number_app (s t : string) :
  Spec.clean_break t = true ->
  Py.match_number (s ++ t)
  = match Py.match_number s with
    | Some (m, rest) => Some (m, rest ++ t)
    | None => None
    end.
Proof.
  intros Hb. pose proof (clean_break_head t Hb) as Hh.
  unfold Py.match_number.
  destruct (Py.span_digits s) as [d1 r1] eqn:E1.
  rewrite (span_digits_app s t d1 r1 E1 Hh).
  destruct d1 as [|c1 d1]; [reflexivity|].
  destruct r1 as [|c r2].
  - cbn [append]. destruct t as [|c t]; [reflexivity|].
    simpl in Hb. apply andb_prop in Hb as [_ Hb].
    destruct (Ascii.eqb c ","); [|reflexivity].
    simpl in Hb.
    rewrite (span_digits_no_digit_head t).
    + reflexivity.
    + destruct t; [trivial | now apply negb_true_iff in Hb].
  - cbn [append]. destruct (Ascii.eqb c ","); [|reflexivity].
    destruct (Py.span_digits r2) as [d2 r3] eqn:E2.
    rewrite (span_digits_app r2 t d2 r3 E2 Hh).
    destruct d2; reflexivity.
Qed.

Lemma findall_app (s t : string) :
  Spec.clean_break t = true ->
  Py.findall (s ++ t) = (Py.findall s ++ Py.findall t)%list.
Proof.
  intros Hb. remember (String.length s) as n eqn:Hn. revert s Hn.
  induction n as [n IH] using lt_wf_ind; intros s Hn.
  destruct s as [|c s]; [reflexivity|].
  change (String c s ++ t) with (String c (s ++ t)).
  rewrite (findall_unfold c (s ++ t)), (findall_unfold c s).
  change (String c (s ++ t)) with (String c s ++ t).
  rewrite (match_number_app _ _ Hb).
  destruct (Py.match_number (String c s)) as [[m rest]|] eqn:E.
  - pose proof (match_number_shorter _ _ _ E) as Hlt.
    cbn [app]. f_equal.
    apply (IH (String.length rest)); [subst n; exact Hlt | reflexivity].
  - apply (IH (String.length s)); [subst n; simpl; lia | reflexivity].
Qed.

Lemma no_digit_clean_break (t : string) :
  Spec.has_digit t = false -> Spec.clean_break t = true.
Proof.
  destruct t as [|c t]; simpl; [reflexivity|].
  intros H. apply orb_false_elim in H as [-> Ht]. simpl.
  destruct t as [|c' t]; [apply orb_true_r|].
  simpl in Ht. apply orb_false_elim in Ht as [-> _]. apply orb_true_r.
Qed.

Lemma findall_prefix (p s : string) :
  Spec.has_digit p = false -> Py.findall (p ++ s) = Py.findall s.
Proof.
  induction p as [|c p IH]; intros H; [reflexivity|].
  simpl in H. apply orb_false_elim in H as [Hc Hp].
  change (String c p ++ s) with (String c (p ++ s)).
  rewrite findall_unfold. unfold Py.match_number. simpl. rewrite Hc.
  now apply IH.
Qed.

Lemma findall_suffix (s t : string) :
  Spec.has_digit t = false -> Py.findall (s ++ t) = Py.findall s.
Proof.
  intros H. rewrite (findall_app s t (no_digit_clean_break t H)).
  unfold Py.findall at 2. rewrite (findall_no_digit _ _ H).
  apply app_nil_r.
Qed.

Lemma found_numbers_split_aux (s t : string) :
  Spec.clean_break t = true ->
  Spec.found_numbers (s ++ t)
  = (Spec.found_numbers s ++ Spec.found_numbers t)%list.
Proof.
  intros H. unfold Spec.found_numbers.
  now rewrite (findall_app s t H), map_app.
Qed.

(** X4. The numbers found in [s ++ t] are those of [s] followed by
    those of [t], whenever [t] starts neither with a digit nor with a
    comma and a digit. *)
Theorem found_numbers_split :
  forall s t : string,
    Spec.clean_break t = true ->
    Spec.found_numbers (s ++ t)
    = (Spec.found_numbers s ++ Spec.found_numbers t)%list.
Proof.
  intros s t H. unfold Spec.found_numbers.
  rewrite (findall_app s t H). apply map_app.
Qed.

Lemma found_numbers_split_witness :
  Spec.found_numbers ("2019: 40,000" ++ " to 55,000")
  = (Spec.found_numbers "2019: 40,000" ++ Spec.found_numbers " to 55,000")%list.
Proof.
  apply (found_numbers_split "2019: 40,000" " to 55,000"). reflexivity.
Defined.

Lemma found_numbers_surrounding (p s t : string) :
  Spec.has_digit p = false ->
  Spec.has_digit t = false ->
  Spec.found_numbers (p ++ s ++ t) = Spec.found_numbers s.
Proof.
  intros Hp Ht. unfold Spec.found_numbers.
  now rewrite (findall_prefix p _ Hp), (findall_suffix s t Ht).
Qed.

(** X2. Text without digits before and after a salary string changes
    nothing: both [clean_salary] return on [p ++ s ++ t] what they
    return on [s]. *)
Theorem clean_salary_ignores_surrounding_text :
  forall p s t : string,
    Spec.has_digit p = false ->
    Spec.has_digit t = false ->
    App.clean_salary (Some (p ++ s ++ t)) = App.clean_salary (Some s)
    /\ Train.clean_salary (Some (p ++ s ++ t)) = Train.clean_salary (Some s).
Proof.
  intros p s t Hp Ht.
  rewrite !app_clean_salary_spec, !train_clean_salary_value.
  now rewrite (found_numbers_surrounding p s t Hp Ht).
Qed.

Lemma clean_salary_ignores_surrounding_text_witness :
  App.clean_salary (Some ("USD " ++ "40,000-55,000" ++ " per year"))
  = App.clean_salary (Some "40,000-55,000")
  /\ Train.clean_salary (Some ("USD " ++ "40,000-55,000" ++ " per year"))
     = Train.clean_salary (Some "40,000-55,000").
Proof.
  apply (clean_salary_ignores_surrounding_text
           "USD " "40,000-55,000" " per year"); reflexivity.
Defined.

(** ** Stripping does not change the salary value *)

Lemma lstrip_decompose (s : string) :
  exists a, s = a ++ Py.lstrip s /\ Spec.all_space a = true.
Proof.
  induction s as [|c s (a & Ha & Hsp)]; [now exists ""|].
  simpl. destruct (Py.isspace c) eqn:E.
  - exists (String c a). simpl. rewrite E, Hsp. split; [now f_equal|
    reflexivity].
  - now exists "".
Qed.

Lemma append_empty_r (s : string) : s ++ "" = s.
Proof.
  induction s as [|c s IH]; simpl; [reflexivity | now rewrite IH].
Qed.

Lemma rstrip_decompose (s : string) :
  exists b, s = Py.rstrip s ++ b /\ Spec.all_space b = true.
Proof.
  induction s as [|c s (b & Hb & Hsp)]; [now exists ""|].
  simpl. destruct (Py.rstrip s) as [|c' r] eqn:E.
  - simpl in Hb. subst b. destruct (Py.isspace c) eqn:Ec.
    + exists (String c s). simpl. now rewrite Ec, Hsp.
    + exists s. now split.
  - exists b. split; [|exact Hsp]. simpl. f_equal. exact Hb.
Qed.

Lemma strip_decompose (s : string) :
  exists a b,
    s = a ++ Py.strip s ++ b
    /\ Spec.all_space a = true /\ Spec.all_space b = true.
Proof.
  destruct (lstrip_decompose s) as (a & Ha & Hsa).
  destruct (rstrip_decompose (Py.lstrip s)) as (b & Hb & Hsb).
  exists a, b. unfold Py.strip. split; [|now split].
  now rewrite <- Hb.
Qed.

(** X3. Stripping a salary string first, as the view does, gives the
    value that [clean_salary] gives on the unstripped string, as
    [load_data] uses it. *)
Theorem clean_salary_strip_invariant :
  forall s : string,
    App.clean_salary (Some (Py.strip s)) = App.clean_salary (Some s)
    /\ Train.clean_salary (Some (Py.strip s)) = Train.clean_salary (Some s).
Proof.
  intros s. destruct (strip_decompose s) as (a & b & Hs & Ha & Hb).
  pose proof (found_numbers_surrounding
                a (Py.strip s) b
                (all_space_no_digit a Ha) (all_space_no_digit b Hb)) as E.
  rewrite <- Hs in E.
  rewrite !app_clean_salary_spec, !train_clean_salary_value.
  now rewrite E.
Qed.

(** ** Plain numbers, separators and ranges *)

Lemma span_digits_all_digits (a : string) :
  Spec.all_digits a = true -> Py.span_digits a = (a, "").
Proof.
  induction a as [|c a IH]; simpl; [reflexivity|].
  intros H. apply andb_prop in H as [-> Ha]. now rewrite (IH Ha).
Qed.

Lemma findall_digit_string (a : string) :
  Spec.digit_string a -> Py.findall a = [a].
Proof.
  intros [Hne Hd]. destruct a as [|c a]; [congruence|].
  rewrite findall_unfold. unfold Py.match_number.
  now rewrite (span_digits_all_digits _ Hd).
Qed.

Lemma findall_comma_group (a b : string) :
  Spec.digit_string a -> Spec.digit_string b ->
  Py.findall (a ++ String "," b) = [a ++ String "," b].
Proof.
  intros [Hna Ha] [Hnb Hb].
  destruct a as [|c a]; [congruence|].
  change (String c a ++ String "," b) with (String c (a ++ String "," b)).
  rewrite findall_unfold.
  change (String c (a ++ String "," b)) with (String c a ++ String "," b).
  unfold Py.match_number.
  rewrite (span_digits_app (String c a) (String "," b) (String c a) ""
             (span_digits_all_digits _ Ha) eq_refl).
  cbn [append]. change (Ascii.eqb "," ",") with true. cbv iota.
  rewrite (span_digits_all_digits _ Hb).
  destruct b as [|c' b]; [congruence | reflexivity].
Qed.

Lemma digit_string_app (a b : string) :
  Spec.digit_string a -> Spec.digit_string b -> Spec.digit_string (a ++ b).
Proof.
  intros [Hna Ha] [_ Hb]. split.
  - destruct a; [congruence | discriminate].
  - now rewrite all_digits_app, Ha, Hb.
Qed.

(** X5. A run of digits normalises to its value, and two runs of
    digits joined by one comma normalise to the value of the digits
    read together, the comma dropped. *)
Theorem clean_salary_single_number :
  forall a b : string,
    Spec.digit_string a -> Spec.digit_string b ->
    exists va vab,
      Py.float a = Ok va
      /\ Py.float (a ++ b) = Ok vab
      /\ App.clean_salary (Some a) = Ok va
      /\ Spec.returns (Train.clean_salary (Some a)) va
      /\ App.clean_salary (Some (a ++ String "," b)) = Ok vab
      /\ Spec.returns (Train.clean_salary (Some (a ++ String "," b))) vab.
Proof.
  intros a b Ha Hb.
  destruct (float_digit_string a Ha) as [na Hfa].
  destruct (float_digit_string (a ++ b) (digit_string_app a b Ha Hb))
    as [nab Hfab].
  assert (Ea : Spec.found_numbers a = [inject_Z (Z.of_N na)]).
  { unfold Spec.found_numbers. rewrite (findall_digit_string a Ha).
    cbn [map]. unfold Spec.number_value.
    now rewrite (remove_commas_digits a (proj2 Ha)), Hfa. }
  assert (Eab : Spec.found_numbers (a ++ String "," b)
                = [inject_Z (Z.of_N nab)]).
  { unfold Spec.found_numbers. rewrite (findall_comma_group a b Ha Hb).
    cbn [map]. unfold Spec.number_value.
    rewrite remove_commas_app.
    change (Py.remove_commas (String "," b)) with (Py.remove_commas b).
    rewrite (remove_commas_digits a (proj2 Ha)),
      (remove_commas_digits b (proj2 Hb)).
    now rewrite Hfab. }
  exists (inject_Z (Z.of_N na)), (inject_Z (Z.of_N nab)).
  split; [exact Hfa|]. split; [exact Hfab|].
  pose proof (train_clean_salary_spec a) as Ta.
  pose proof (train_clean_salary_spec (a ++ String "," b)) as Tab.
  rewrite Ea in Ta. rewrite Eab in Tab.
  rewrite !app_clean_salary_spec, Ea, Eab.
  repeat split; assumption.
Qed.

Lemma clean_salary_single_number_witness :
  exists va vab,
    Py.float "120" = Ok va
    /\ Py.float ("120" ++ "500") = Ok vab
    /\ App.clean_salary (Some "120") = Ok va
    /\ Spec.returns (Train.clean_salary (Some "120")) va
    /\ App.clean_salary (Some ("120" ++ String "," "500")) = Ok vab
    /\ Spec.returns (Train.clean_salary (Some ("120" ++ String "," "500")))
                    vab.
Proof.
  apply (clean_salary_single_number "120" "500");
    (split; [discriminate | reflexivity]).
Defined.

(** X6. When [x] and [y] each hold exactly one number and are joined by
    a separator that has no digit and does not start with a comma, both
    [clean_salary] return the mean of the two numbers. *)
Theorem clean_salary_range_is_midpoint :
  forall (x y sep : string) (c : ascii) (vx vy : Q),
    Spec.found_numbers x = [vx] ->
    Spec.found_numbers y = [vy] ->
    Py.isdigit c = false ->
    Ascii.eqb c "," = false ->
    Spec.has_digit sep = false ->
    Spec.returns (App.clean_salary (Some (x ++ String c sep ++ y)))
                 ((vx + vy) / 2)
    /\ Spec.returns (Train.clean_salary (Some (x ++ String c sep ++ y)))
                    ((vx + vy) / 2).
Proof.
  intros x y sep c vx vy Hx Hy Hc Hcomma Hsep.
  assert (Hbreak : Spec.clean_break (String c sep ++ y) = true).
  { simpl. now rewrite Hc, Hcomma. }
  assert (E : Spec.found_numbers (x ++ String c sep ++ y) = [vx; vy]).
  { rewrite (found_numbers_split_aux x _ Hbreak), Hx.
    unfold Spec.found_numbers at 1.
    rewrite (findall_prefix (String c sep) y).
    - fold (Spec.found_numbers y). now rewrite Hy.
    - simpl. now rewrite Hc, Hsep. }
  pose proof (train_clean_salary_spec (x ++ String c sep ++ y)) as T.
  rewrite app_clean_salary_spec. rewrite E in T |- *.
  assert (Hmean : (Spec.representative [vx; vy] == (vx + vy) / 2)%Q).
  { simpl. unfold Py.sum. simpl. field. }
  split.
  - simpl Spec.returns. exact Hmean.
  - destruct (Train.clean_salary (Some (x ++ String c sep ++ y)));
      [|contradiction].
    simpl in T |- *. now rewrite T.
Qed.

Lemma clean_salary_range_is_midpoint_witness :
  Spec.returns
    (App.clean_salary (Some ("$40,000" ++ String "-" " $" ++ "55,000/yr")))
    ((40000 + 55000) / 2)
  /\ Spec.returns
       (Train.clean_salary
          (Some ("$40,000" ++ String "-" " $" ++ "55,000/yr")))
       ((40000 + 55000) / 2).
Proof.
  apply (clean_salary_range_is_midpoint
           "$40,000" "55,000/yr" " $" "-" 40000 55000); reflexivity.
Defined.

(** ** The cache and the calls of the endpoint *)

Lemma rstrip_idempotent (s : string) :
  Py.rstrip (Py.rstrip s) = Py.rstrip s.
Proof.
  induction s as [|c s IH]; [reflexivity|].
  cbn [Py.rstrip]. destruct (Py.rstrip s) as [|c' r] eqn:E.
  - destruct (Py.isspace c) eqn:Ec; [reflexivity|].
    cbn. now rewrite Ec.
  - cbn [Py.rstrip]. cbn [Py.rstrip] in IH. now rewrite IH.
Qed.

Lemma strip_idempotent (s : string) :
  Py.strip (Py.strip s) = Py.strip s.
Proof.
  unfold Py.strip at 1 2.
  assert (H : Py.lstrip (Py.strip s) = Py.strip s).
  { unfold Py.strip. destruct (Py.lstrip s) as [|c t] eqn:E; [reflexivity|].
    pose proof (lstrip_head _ _ _ E) as Hc.
    destruct (rstrip_keeps_head c t Hc) as [r ->]. simpl. now rewrite Hc. }
  fold (Py.strip s). rewrite H. unfold Py.strip. apply rstrip_idempotent.
Qed.

Lemma request_text_stripped (req : Endpoint.request) :
  Py.strip (Endpoint.request_text req) = Endpoint.request_text req.
Proof.
  unfold Endpoint.request_text.
  destruct (negb _ && _); apply strip_idempotent.
Qed.

Section CacheFacts.

Variable Artifact : Type.
Variable truthy : Artifact -> bool.
Variable model_predict :
  Artifact -> string -> Q -> result (list (result Z)).

Abbreviation world := (Endpoint.world Artifact).
Abbreviation app_state := (Endpoint.app_state Artifact).
Abbreviation load_ml := (Endpoint.load_ml Artifact truthy).
Abbreviation predict := (Endpoint.predict Artifact truthy model_predict).
Abbreviation ml_model := (Endpoint.ml_model Artifact).
Abbreviation ml_vectorizer := (Endpoint.ml_vectorizer Artifact).
Abbreviation history := (Endpoint.history Artifact).
Abbreviation trace := (Endpoint.trace Artifact).

(** Everything [load_ml] can do: read files, and fill slots. *)
Lemma load_ml_effects (w : world) (st : app_state) :
  exists st1 loads,
    load_ml w st = (Ok tt, st1)
    /\ history st1 = history st
    /\ trace st1 = (loads ++ trace st)%list
    /\ forallb Spec.is_load loads = true
    /\ (ml_model st <> None -> ml_model st1 <> None)
    /\ (ml_vectorizer st <> None -> ml_vectorizer st1 <> None)
    /\ (Spec.warm truthy st = true -> st1 = st /\ loads = []).
Proof.
  unfold Endpoint.load_ml, Endpoint.bind, Endpoint.get, Endpoint.try_except,
    Spec.warm.
  destruct (Endpoint.truthy_slot _ truthy (ml_model st)
            && Endpoint.truthy_slot _ truthy (ml_vectorizer st)).
  - exists st, []. repeat split; auto.
  - destruct (Endpoint.vec_file _ w), (Endpoint.model_file _ w); cbn.
    all: eexists.
    all: first
      [ exists []; split; [reflexivity|]; cbn;
        repeat split; auto; discriminate
      | exists [Endpoint.LoadFile Endpoint.VecPath];
        split; [reflexivity|]; cbn; repeat split; auto; discriminate
      | exists [Endpoint.LoadFile Endpoint.ModelPath];
        split; [reflexivity|]; cbn; repeat split; auto; discriminate
      | exists [Endpoint.LoadFile Endpoint.ModelPath;
                Endpoint.LoadFile Endpoint.VecPath];
        split; [reflexivity|]; cbn; repeat split; auto; discriminate ].
Qed.

Ltac enter_view req Hne Hload :=
  unfold Endpoint.predict at 1;
  rewrite (proj2 (truthy_str_true _) Hne); cbn [negb];
  unfold Endpoint.bind at 1; rewrite Hload;
  unfold Endpoint.try_except, Endpoint.bind, Endpoint.get, Endpoint.lift;
  rewrite app_clean_salary_spec;
  fold (Spec.request_salary req).

(** Everything the view does after [load_ml], on a non-blank input:
    the cache is left as it is; the model is called once at most, with
    the text and the salary value of the request, and only when both
    slots are filled; a row is committed once at most, after that
    call. *)
Lemma predict_effects (w : world) (req : Endpoint.request)
      (st st1 : app_state) :
  Endpoint.request_text req <> "" ->
  load_ml w st = (Ok tt, st1) ->
  exists resp st' evs rows,
    predict w req st = (Ok resp, st')
    /\ ml_model st' = ml_model st1
    /\ ml_vectorizer st' = ml_vectorizer st1
    /\ trace st' = (evs ++ trace st1)%list
    /\ history st' = (history st1 ++ rows)%list
    /\ ((evs = [] /\ rows = []
         /\ resp = Endpoint.model_missing_response req
         /\ (ml_vectorizer st1 = None \/ ml_model st1 = None))
        \/ (ml_vectorizer st1 <> None /\ ml_model st1 <> None
            /\ ((evs = [Endpoint.ModelPredict (Endpoint.request_text req)
                                              (Spec.request_salary req)]
                 /\ rows = []
                 /\ exists e, resp = Endpoint.failure_response req e)
                \/ (exists p,
                       evs = [Endpoint.DbCommit (Spec.history_row req p);
                              Endpoint.ModelPredict
                                (Endpoint.request_text req)
                                (Spec.request_salary req)]
                       /\ ((rows = []
                            /\ exists e,
                                resp = Endpoint.failure_response req e)
                           \/ (rows = [Spec.history_row req p]
                               /\ resp = Endpoint.prediction_response
                                           req (Endpoint.label_of p))))))).
Proof.
  intros Hne Hload. enter_view req Hne Hload.
  destruct (ml_vectorizer st1) as [v|] eqn:Hv;
    [destruct (ml_model st1) as [mdl|] eqn:Hm|].
  - cbn.
    destruct (model_predict mdl (Endpoint.request_text req)
                            (Spec.request_salary req))
      as [[|[p|e'] rest]|e] eqn:Hp; cbn.
    + do 2 eexists.
      exists [Endpoint.ModelPredict (Endpoint.request_text req)
                                    (Spec.request_salary req)], [].
      split; [reflexivity|]. cbn. rewrite app_nil_r.
      repeat split; auto. right. repeat split; try discriminate.
      left. repeat split. eexists. reflexivity.
    + unfold Endpoint.db_commit, Endpoint.bind. cbn.
      destruct (Endpoint.commit_error _ w) as [e|] eqn:He; cbn.
      * do 2 eexists.
        exists [Endpoint.DbCommit (Spec.history_row req p);
                Endpoint.ModelPredict (Endpoint.request_text req)
                                      (Spec.request_salary req)], [].
        split; [reflexivity|]. cbn. rewrite app_nil_r.
        repeat split; auto. right. repeat split; try discriminate.
        right. exists p. split; [reflexivity|]. left. split; [reflexivity|].
        eexists. reflexivity.
      * do 2 eexists.
        exists [Endpoint.DbCommit (Spec.history_row req p);
                Endpoint.ModelPredict (Endpoint.request_text req)
                                      (Spec.request_salary req)],
               [Spec.history_row req p].
        split; [reflexivity|]. cbn.
        repeat split; auto. right. repeat split; try discriminate.
        right. exists p. split; [reflexivity|]. right. now split.
    + do 2 eexists.
      exists [Endpoint.ModelPredict (Endpoint.request_text req)
                                    (Spec.request_salary req)], [].
      split; [reflexivity|]. cbn. rewrite app_nil_r.
      repeat split; auto. right. repeat split; try discriminate.
      left. repeat split. eexists. reflexivity.
    + do 2 eexists.
      exists [Endpoint.ModelPredict (Endpoint.request_text req)
                                    (Spec.request_salary req)], [].
      split; [reflexivity|]. cbn. rewrite app_nil_r.
      repeat split; auto. right. repeat split; try discriminate.
      left. repeat split. eexists. reflexivity.
  - exists (Endpoint.model_missing_response req), st1, [], [].
    rewrite app_nil_r. repeat split; auto. left. repeat split; auto.
  - exists (Endpoint.model_missing_response req), st1, [], [].
    rewrite app_nil_r. repeat split; auto. left. repeat split; auto.
Qed.

(** One run of the view, whatever the input: what is read, what is
    called, what is stored and what is answered. *)
Lemma predict_run (w : world) (req : Endpoint.request) (st : app_state) :
  exists resp st' loads evs rows,
    predict w req st = (Ok resp, st')
    /\ trace st' = (evs ++ loads ++ trace st)%list
    /\ forallb Spec.is_load loads = true
    /\ history st' = (history st ++ rows)%list
    /\ (ml_model st <> None -> ml_model st' <> None)
    /\ (ml_vectorizer st <> None -> ml_vectorizer st' <> None)
    /\ (Spec.warm truthy st = true ->
        ml_model st' = ml_model st /\ ml_vectorizer st' = ml_vectorizer st
        /\ loads = [])
    /\ ((Endpoint.request_text req = "" /\ st' = st
         /\ evs = [] /\ loads = [] /\ rows = []
         /\ resp = Endpoint.input_empty_response req)
        \/ (Endpoint.request_text req <> ""
            /\ evs = [] /\ rows = []
            /\ resp = Endpoint.model_missing_response req
            /\ (ml_vectorizer st' = None \/ ml_model st' = None))
        \/ (Endpoint.request_text req <> ""
            /\ ml_vectorizer st' <> None /\ ml_model st' <> None
            /\ rows = []
            /\ (exists e, resp = Endpoint.failure_response req e)
            /\ (evs = [Endpoint.ModelPredict (Endpoint.request_text req)
                                             (Spec.request_salary req)]
                \/ exists p,
                    evs = [Endpoint.DbCommit (Spec.history_row req p);
                           Endpoint.ModelPredict
                             (Endpoint.request_text req)
                             (Spec.request_salary req)]))
        \/ (Endpoint.request_text req <> ""
            /\ ml_vectorizer st' <> None /\ ml_model st' <> None
            /\ exists p,
                evs = [Endpoint.DbCommit (Spec.history_row req p);
                       Endpoint.ModelPredict (Endpoint.request_text req)
                                             (Spec.request_salary req)]
                /\ rows = [Spec.history_row req p]
                /\ resp = Endpoint.prediction_response
                            req (Endpoint.label_of p))).
Proof.
  destruct (string_dec (Endpoint.request_text req) "") as [Hb|Hne].
  { exists (Endpoint.input_empty_response req), st, [], [], [].
    rewrite app_nil_r.
    split; [now apply predict_blank|].
    repeat split; auto. left. repeat split; auto. }
  destruct (load_ml_effects w st)
    as (st1 & loads & Hload & Hh1 & Ht1 & Hloads & Hm1 & Hv1 & Hwarm).
  destruct (predict_effects w req st st1 Hne Hload)
    as (resp & st' & evs & rows & Hrun & Hm & Hv & Ht & Hh & Hcase).
  exists resp, st', loads, evs, rows.
  split; [exact Hrun|]. split; [now rewrite Ht, Ht1|].
  split; [exact Hloads|]. split; [now rewrite Hh, Hh1|].
  split; [rewrite Hm; exact Hm1|]. split; [rewrite Hv; exact Hv1|].
  split.
  { intros Hw. destruct (Hwarm Hw) as [-> ->]. auto. }
  right. rewrite Hm, Hv.
  destruct Hcase as [(-> & -> & -> & Hslot)
                    | (Hv' & Hm' & [(-> & -> & e & ->)
                                   | (p & -> & [(-> & e & ->)
                                               | (-> & ->)])])].
  - left. repeat split; auto.
  - right; left. repeat split; auto. eexists; reflexivity.
  - right; left. repeat split; auto; [eexists; reflexivity|].
    right. now exists p.
  - right; right. repeat split; auto. now exists p.
Qed.

(** X8. Once both slots hold artifacts that count as true, a request
    reads no artifact file and leaves the cache as it is, whatever is
    on disk; and if its input is not blank, the model is called. *)
Theorem warm_cache_is_never_reloaded :
  forall (w : world) (req : Endpoint.request) (st : app_state),
    Spec.warm truthy st = true ->
    exists resp st' evs,
      predict w req st = (Ok resp, st')
      /\ ml_model st' = ml_model st
      /\ ml_vectorizer st' = ml_vectorizer st
      /\ Spec.warm truthy st' = true
      /\ trace st' = (evs ++ trace st)%list
      /\ existsb Spec.is_load evs = false
      /\ (Endpoint.request_text req <> "" ->
          In (Endpoint.ModelPredict (Endpoint.request_text req)
                                    (Spec.request_salary req)) evs).
Proof.
  intros w req st Hw.
  destruct (predict_run w req st)
    as (resp & st' & loads & evs & rows & Hrun & Ht & _ & _ & _ & _
        & Hwarm & Hcase).
  destruct (Hwarm Hw) as (Hm & Hv & ->).
  exists resp, st', evs. split; [exact Hrun|].
  split; [exact Hm|]. split; [exact Hv|].
  split; [unfold Spec.warm in *; now rewrite Hm, Hv|].
  split; [exact Ht|].
  assert (Hfilled : ml_vectorizer st' <> None /\ ml_model st' <> None).
  { rewrite Hm, Hv. unfold Spec.warm in Hw.
    apply andb_prop in Hw as [H1 H2].
    split; intros E; rewrite E in *; discriminate. }
  destruct Hcase as [(Hb & _ & -> & _)
                    | [(_ & _ & _ & _ & [E | E])
                      | [(_ & _ & _ & _ & _ & [-> | (p & ->)])
                        | (_ & _ & _ & p & -> & _)]]].
  - split; [reflexivity | intros H; contradiction].
  - now destruct Hfilled.
  - now destruct Hfilled.
  - split; [reflexivity | intros _; now left].
  - split; [reflexivity | intros _; right; now left].
  - split; [reflexivity | intros _; right; now left].
Qed.

(** X9. A request never empties a slot of the cache: a slot that
    holds an artifact before the request holds one after it. *)
Theorem filled_slot_stays_filled :
  forall (w : world) (req : Endpoint.request) (st : app_state),
    exists resp st',
      predict w req st = (Ok resp, st')
      /\ (ml_model st <> None -> ml_model st' <> None)
      /\ (ml_vectorizer st <> None -> ml_vectorizer st' <> None).
Proof.
  intros w req st.
  destruct (predict_run w req st)
    as (resp & st' & loads & evs & rows & Hrun & _ & _ & _ & Hm & Hv & _).
  exists resp, st'. auto.
Qed.

(** X10. The history only grows, by one row at most per request; a row
    is written exactly when a prediction is returned, and it carries
    the stripped, non-empty text of the request, the returned label and
    the user of the request. *)
Theorem history_row_matches_answer :
  forall (w : world) (req : Endpoint.request) (st : app_state),
    exists resp st' rows,
      predict w req st = (Ok resp, st')
      /\ history st' = (history st ++ rows)%list
      /\ ((rows = []
           /\ (resp = Endpoint.input_empty_response req
               \/ resp = Endpoint.model_missing_response req
               \/ exists e, resp = Endpoint.failure_response req e))
          \/ (exists row,
                 rows = [row]
                 /\ resp = Endpoint.prediction_response
                             req (Endpoint.ph_prediction row)
                 /\ Endpoint.ph_text row = Endpoint.request_text req
                 /\ Endpoint.ph_text row <> ""
                 /\ Py.strip (Endpoint.ph_text row) = Endpoint.ph_text row
                 /\ Endpoint.ph_user_id row = Endpoint.user_id req
                 /\ (Endpoint.ph_prediction row = "Fake Job Posting"
                     \/ Endpoint.ph_prediction row = "Real Job Posting"))).
Proof.
  intros w req st.
  destruct (predict_run w req st)
    as (resp & st' & loads & evs & rows & Hrun & _ & _ & Hh & _ & _ & _
        & Hcase).
  exists resp, st', rows. split; [exact Hrun|]. split; [exact Hh|].
  destruct Hcase as [(_ & _ & _ & _ & -> & ->)
                    | [(_ & _ & -> & -> & _)
                      | [(_ & _ & _ & -> & He & _)
                        | (Hne & _ & _ & p & _ & -> & ->)]]].
  - left. auto.
  - left. auto.
  - left. auto.
  - right. exists (Spec.history_row req p). cbn.
    repeat split; auto.
    + apply request_text_stripped.
    + unfold Endpoint.label_of. destruct (p =? 1)%Z; auto.
Qed.

Lemma loads_hold_no_call (loads : list Endpoint.event)
      (ev : Endpoint.event) :
  forallb Spec.is_load loads = true ->
  In ev loads -> Spec.is_load ev = true.
Proof.
  intros H Hin. rewrite forallb_forall in H. now apply H.
Qed.

Lemma loads_filter_calls (loads : list Endpoint.event) :
  forallb Spec.is_load loads = true ->
  filter Spec.is_model_call loads = [].
Proof.
  induction loads as [|ev loads IH]; [reflexivity|].
  cbn [forallb]. intros H. apply andb_prop in H as [Hev Hl].
  destruct ev; cbn in *; try discriminate. now apply IH.
Qed.

(** X11. During one request the model is called once at most, on the
    text and the salary value of that request, never on a blank text
    and never with an empty slot in the cache; and nothing is committed
    unless the model was called. *)
Theorem model_is_called_once_at_most :
  forall (w : world) (req : Endpoint.request) (st : app_state),
    exists resp st' new,
      predict w req st = (Ok resp, st')
      /\ trace st' = (new ++ trace st)%list
      /\ (List.length (filter Spec.is_model_call new) <= 1)%nat
      /\ (forall t q,
             In (Endpoint.ModelPredict t q) new ->
             t = Endpoint.request_text req /\ q = Spec.request_salary req
             /\ t <> ""
             /\ ml_model st' <> None /\ ml_vectorizer st' <> None)
      /\ (forall row,
             In (Endpoint.DbCommit row) new ->
             In (Endpoint.ModelPredict (Endpoint.request_text req)
                                       (Spec.request_salary req)) new).
Proof.
  intros w req st.
  destruct (predict_run w req st)
    as (resp & st' & loads & evs & rows & Hrun & Ht & Hloads & _ & _ & _ & _
        & Hcase).
  exists resp, st', (evs ++ loads)%list.
  split; [exact Hrun|]. split; [now rewrite <- app_assoc|].
  rewrite filter_app, (loads_filter_calls loads Hloads), app_nil_r.
  assert (Hno : forall ev, In ev loads -> Spec.is_load ev = true)
    by (intros ev; now apply loads_hold_no_call).
  destruct Hcase as [(_ & _ & -> & _)
                    | [(_ & -> & _)
                      | [(Hne & Hv & Hm & _ & _ & [-> | (p & ->)])
                        | (Hne & Hv & Hm & p & -> & _)]]].
  all: split; [cbn; lia|].
  all: split;
    [intros t q Hin; apply in_app_or in Hin as [Hin | Hin];
     [|apply Hno in Hin; discriminate]
    |intros row Hin; apply in_app_or in Hin as [Hin | Hin];
     [|apply Hno in Hin; discriminate]].
  all: cbn in Hin; try contradiction.
  all: repeat match goal with
         | H : _ \/ _ |- _ => destruct H
         | H : False |- _ => contradiction
         end;
    try discriminate.
  all: try (match goal with
            | H : Endpoint.ModelPredict _ _ = Endpoint.ModelPredict _ _ |- _ =>
                inversion H; subst
            end; repeat split; auto).
  all: apply in_or_app; left; cbn; auto.
Qed.

(** X12. An AJAX caller always gets JSON: the error of status 400 for a
    blank input and for nothing else; otherwise the missing-model error
    or the message of a caught exception, with status 500, or a
    prediction of status 200 with one of the two labels.  Any other
    caller always gets a flashed message and a redirect: the warning
    for a blank input and for nothing else; otherwise a "danger"
    message (missing model, caught exception, or the fake label after a
    warning sign) or the "success" message, the real label after a
    check mark. *)
Theorem answer_form_follows_the_caller :
  forall (w : world) (req : Endpoint.request) (st : app_state),
    exists resp st',
      predict w req st = (Ok resp, st')
      /\ (Endpoint.xhr req = true ->
          (resp = Endpoint.Json "error" "Please provide job details." 400
           /\ Endpoint.request_text req = "")
          \/ (Endpoint.request_text req <> ""
              /\ (resp = Endpoint.Json
                           "error"
                           "Model files missing. Please run train.py first."
                           500
                  \/ (exists e, resp = Endpoint.Json "error" (exn_str e) 500)
                  \/ resp = Endpoint.Json "prediction" "Fake Job Posting" 200
                  \/ resp = Endpoint.Json "prediction"
                                          "Real Job Posting" 200)))
      /\ (Endpoint.xhr req = false ->
          (resp = Endpoint.FlashRedirect
                    "Please fill all fields before predicting." "warning"
           /\ Endpoint.request_text req = "")
          \/ (Endpoint.request_text req <> ""
              /\ (resp = Endpoint.FlashRedirect
                           "Model files missing. Please run train.py first."
                           "danger"
                  \/ (exists e,
                         resp = Endpoint.FlashRedirect
                                  ("Prediction failed: " ++ exn_str e)
                                  "danger")
                  \/ resp = Endpoint.FlashRedirect
                              (String "226" (String "154" (String "160"
                                 (String "239" (String "184" (String "143"
                                    " Prediction: Fake Job Posting"))))))
                              "danger"
                  \/ resp = Endpoint.FlashRedirect
                              (String "226" (String "156" (String "133"
                                 " Prediction: Real Job Posting")))
                              "success"))).
Proof.
  intros w req st.
  destruct (predict_run w req st)
    as (resp & st' & loads & evs & rows & Hrun & _ & _ & _ & _ & _ & _
        & Hcase).
  exists resp, st'. split; [exact Hrun|].
  destruct (answers_written_out req) as (Hin & Hmiss & Hfail & Hpred).
  destruct Hcase as [(Hb & _ & _ & _ & _ & ->)
                    | [(Hne & _ & _ & -> & _)
                      | [(Hne & _ & _ & _ & (e & ->) & _)
                        | (Hne & _ & _ & p & _ & _ & ->)]]].
  - rewrite Hin. split; intros ->; left; auto.
  - rewrite Hmiss. split; intros ->; right; (split; [exact Hne|]); auto.
  - rewrite Hfail. split; intros ->; right; (split; [exact Hne|]); eauto.
  - rewrite Hpred.
    split; intros ->; right; (split; [exact Hne|]);
      destruct (p =? 1)%Z; auto.
Qed.

(** X13. With no vectorizer in the cache and no vectorizer file on
    disk, a non-blank request is answered that the model files are
    missing, whatever the model file holds; the vectorizer slot is
    still empty afterwards, so the same holds for the next request; and
    a readable model file is read again each time. *)
Theorem no_vectorizer_file_no_prediction :
  forall (w : world) (req : Endpoint.request) (st : app_state),
    Endpoint.vec_file _ w = Endpoint.Absent _ ->
    ml_vectorizer st = None ->
    Endpoint.request_text req <> "" ->
    exists st',
      predict w req st = (Ok (Endpoint.model_missing_response req), st')
      /\ ml_vectorizer st' = None
      /\ history st' = history st
      /\ existsb Spec.is_model_call (trace st')
         = existsb Spec.is_model_call (trace st)
      /\ (forall m,
             Endpoint.model_file _ w = Endpoint.Stored _ m ->
             ml_model st' = Some m
             /\ trace st'
                = Endpoint.LoadFile Endpoint.ModelPath :: trace st).
Proof.
  intros w req st Hvec Hv Hne.
  assert (Hload :
            exists st1,
              load_ml w st = (Ok tt, st1)
              /\ ml_vectorizer st1 = None
              /\ history st1 = history st
              /\ existsb Spec.is_model_call (trace st1)
                 = existsb Spec.is_model_call (trace st)
              /\ (forall m,
                     Endpoint.model_file _ w = Endpoint.Stored _ m ->
                     ml_model st1 = Some m
                     /\ trace st1
                        = Endpoint.LoadFile Endpoint.ModelPath :: trace st)).
  { unfold Endpoint.load_ml, Endpoint.bind, Endpoint.get,
      Endpoint.try_except.
    rewrite Hv, Hvec. cbn [Endpoint.truthy_slot]. rewrite andb_false_r.
    destruct (Endpoint.model_file _ w) as [|e|m]; cbn;
      (eexists; split; [reflexivity|]; cbn;
       split; [first [reflexivity | exact Hv]|]; split; [reflexivity|];
       split; [reflexivity|]).
    all: intros m' E; inversion E; subst; auto. }
  destruct Hload as (st1 & Hload & Hv1 & Hh1 & Ht1 & Hm1).
  exists st1. split; [|auto].
  apply (predict_model_missing Artifact truthy model_predict w req st st1);
    auto.
Qed.

End CacheFacts.

Lemma warm_cache_is_never_reloaded_witness :
  exists resp st' evs,
    Endpoint.predict unit Sample.any_truthy (Sample.answers 1)
                     Sample.no_files Sample.discrete_request
                     Sample.warm_state
    = (Ok resp, st')
    /\ Endpoint.ml_model _ st' = Some tt
    /\ Endpoint.ml_vectorizer _ st' = Some tt
    /\ Spec.warm Sample.any_truthy st' = true
    /\ Endpoint.trace _ st' = (evs ++ [])%list
    /\ existsb Spec.is_load evs = false
    /\ (Endpoint.request_text Sample.discrete_request <> "" ->
        In (Endpoint.ModelPredict
              (Endpoint.request_text Sample.discrete_request)
              (Spec.request_salary Sample.discrete_request)) evs).
Proof.
  apply (warm_cache_is_never_reloaded
           unit Sample.any_truthy (Sample.answers 1)
           Sample.no_files Sample.discrete_request Sample.warm_state).
  reflexivity.
Defined.

Lemma filled_slot_stays_filled_witness :
  exists resp st',
    Endpoint.predict unit Sample.any_truthy Sample.broken
                     Sample.no_model_file Sample.discrete_request
                     Sample.warm_state
    = (Ok resp, st')
    /\ Endpoint.ml_model _ st' <> None
    /\ Endpoint.ml_vectorizer _ st' <> None.
Proof.
  destruct (filled_slot_stays_filled
              unit Sample.any_truthy Sample.broken
              Sample.no_model_file Sample.discrete_request
              Sample.warm_state)
    as (resp & st' & Hrun & Hm & Hv).
  exists resp, st'. split; [exact Hrun|].
  split; [apply Hm | apply Hv]; discriminate.
Defined.

Lemma model_is_called_once_at_most_witness :
  exists resp st' new,
    Endpoint.predict unit Sample.any_truthy (Sample.answers 1)
                     Sample.both_files Sample.discrete_request Sample.cold
    = (Ok resp, st')
    /\ Endpoint.trace _ st' = (new ++ [])%list
    /\ (List.length (filter Spec.is_model_call new) <= 1)%nat.
Proof.
  destruct (model_is_called_once_at_most
              unit Sample.any_truthy (Sample.answers 1)
              Sample.both_files Sample.discrete_request Sample.cold)
    as (resp & st' & new & Hrun & Ht & Hlen & _).
  exists resp, st', new. auto.
Defined.

Lemma answer_form_follows_the_caller_witness :
  exists resp st',
    Endpoint.predict unit Sample.any_truthy (Sample.answers 1)
                     Sample.both_files Sample.discrete_request Sample.cold
    = (Ok resp, st')
    /\ ((resp = Endpoint.Json "error" "Please provide job details." 400
         /\ Endpoint.request_text Sample.discrete_request = "")
        \/ (Endpoint.request_text Sample.discrete_request <> ""
            /\ (resp = Endpoint.Json
                         "error"
                         "Model files missing. Please run train.py first."
                         500
                \/ (exists e, resp = Endpoint.Json "error" (exn_str e) 500)
                \/ resp = Endpoint.Json "prediction" "Fake Job Posting" 200
                \/ resp = Endpoint.Json "prediction"
                                        "Real Job Posting" 200))).
Proof.
  destruct (answer_form_follows_the_caller
              unit Sample.any_truthy (Sample.answers 1)
              Sample.both_files Sample.discrete_request Sample.cold)
    as (resp & st' & Hrun & Hxhr & _).
  exists resp, st'. split; [exact Hrun|]. apply Hxhr. reflexivity.
Defined.

Lemma no_vectorizer_file_no_prediction_witness :
  exists st',
    Endpoint.predict unit Sample.any_truthy (Sample.answers 1)
                     Sample.no_vectorizer_file Sample.discrete_request
                     Sample.cold
    = (Ok (Endpoint.model_missing_response Sample.discrete_request), st')
    /\ Endpoint.ml_vectorizer _ st' = None
    /\ Endpoint.history _ st' = []
    /\ existsb Spec.is_model_call (Endpoint.trace _ st') = false
    /\ (forall m,
           Endpoint.Stored unit tt = Endpoint.Stored _ m ->
           Endpoint.ml_model _ st' = Some m
           /\ Endpoint.trace _ st'
              = [Endpoint.LoadFile Endpoint.ModelPath]).
Proof.
  apply (no_vectorizer_file_no_prediction
           unit Sample.any_truthy (Sample.answers 1)
           Sample.no_vectorizer_file Sample.discrete_request Sample.cold).
  - reflexivity.
  - reflexivity.
  - vm_compute. discriminate.
Defined.
